(** * Employment-support checklist: scoring and draft/record lifecycle

    A shallow embedding of the scoring functions and of the local-storage
    service of [src/EmploymentSupportChecklist.tsx], with the properties the
    specification states about them.

    Conventions of the embedding.
    - A JavaScript [number] that the code only ever builds from integers by
      integer operations (raw responses, normalized scores, sums, counts,
      [Math.round] results) is a [Z]; a number produced by a division is an
      exact rational [Q].  The divisions of the code have at most 15 terms of
      at most one digit in the numerator, so the binary floating point of the
      host agrees with the exact quotient on which side of a rounding
      boundary a value lies.
    - [Record<string, T>] objects are [gmap string T]; a missing property
      reads as [undefined], which the code turns into a default with [||].
    - The collections of [localStorage] are lists, read and written whole.
    - [Date.now()], [new Date().toISOString()] and [Math.random()] are read
      from an explicit environment value passed to each operation.
    - A call that can throw returns an [option]; [None] is the exception. *)

From stdpp Require Import gmap strings list fin_maps pretty.
From Stdlib Require Import Ascii QArith Qround Lqa.
Close Scope Q_scope.
Open Scope string_scope.
Open Scope list_scope.

(** ** JavaScript numbers *)

Module Js.

(** [Math.round(x)]: the nearest integer, ties towards +infinity. *)
Definition Math_round (x : Q) : Z := Qfloor (x + (1 # 2))%Q.

(** [a / b] on two integral numbers. *)
Definition div (a b : Z) : Q := (inject_Z a / inject_Z b)%Q.

(** [s.split('-')[0]]: the part of [s] before its first hyphen. *)
Fixpoint split_head (s : string) : string :=
  match s with
  | EmptyString => EmptyString
  | String c r =>
      if Ascii.eqb c "-"%char then EmptyString else String c (split_head r)
  end.

End Js.

(** ** Data model *)

Inductive Evaluator : Type := self | staff | family.

Global Instance Evaluator_eq_dec : EqDecision Evaluator.
Proof. solve_decision. Defined.

(** The string each evaluator is written as in composite keys. *)
Definition evaluatorKey (e : Evaluator) : string :=
  match e with
  | self => "self"
  | staff => "staff"
  | family => "family"
  end.

Inductive ItemType : Type :=
| radio_5_level
| radio_5_level_with_sub_check
| radio_2_level_with_sub_check.

Global Instance ItemType_eq_dec : EqDecision ItemType.
Proof. solve_decision. Defined.

(** A checklist item.  The option labels and sub-check labels are display
    text; the embedding keeps how many options an item has. *)
Record Item : Type := mkItem {
  item_id : string;
  item_type : ItemType;
  item_options : nat;
  item_subCheckTrigger : list Z
}.

Record Category : Type := mkCategory {
  category_name : string;
  category_items : list Item
}.

Definition plain (id : string) : Item :=
  mkItem id radio_5_level 5 [].
Definition withSub (id : string) : Item :=
  mkItem id radio_5_level_with_sub_check 5 [3%Z; 4%Z; 5%Z].
Definition twoLevel (id : string) : Item :=
  mkItem id radio_2_level_with_sub_check 2 [2%Z].

(** The [categories] table of the component. *)
Definition categories : list Category :=
  [ mkCategory "I 日常生活"
      [ plain "I-1"; plain "I-2"; plain "I-3"; plain "I-4"; plain "I-5";
        withSub "I-6"; withSub "I-7"; withSub "I-8";
        plain "I-9"; plain "I-10"; twoLevel "I-11" ];
    mkCategory "II 働く場での対人関係"
      [ plain "II-1"; plain "II-2"; plain "II-3";
        withSub "II-4"; withSub "II-5"; withSub "II-6";
        plain "II-7"; twoLevel "II-8" ];
    mkCategory "III 働く場での行動・態度"
      [ plain "III-1"; withSub "III-2"; withSub "III-3"; withSub "III-4";
        withSub "III-5"; withSub "III-6"; plain "III-7"; withSub "III-8";
        plain "III-9"; plain "III-10"; plain "III-11"; withSub "III-12";
        plain "III-13"; withSub "III-14"; withSub "III-15" ] ].

(** [array.reduce((acc, x, i) => f(acc, x, i), init)]. *)
Definition reduce {A B : Type} (f : B → A → nat → B) (init : B)
    (l : list A) : B :=
  foldl (λ acc ix, f acc ix.2 ix.1) init (imap pair l).

(** ** Scoring (component functions) *)

Section Scoring.

(** The [evaluations] state: composite key -> raw response. *)
Variable evaluations : gmap string Z.

(** The template literal [`${evaluator}-${categoryIndex}-${itemIndex}`]. *)
Definition responseKey (evaluator : Evaluator)
    (categoryIndex itemIndex : nat) : string :=
  evaluatorKey evaluator +:+ "-" +:+ pretty categoryIndex
    +:+ "-" +:+ pretty itemIndex.

(** [evaluations[key] || 0] *)
Definition getEvaluation (evaluator : Evaluator)
    (categoryIndex itemIndex : nat) : Z :=
  default 0%Z (evaluations !! responseKey evaluator categoryIndex itemIndex).

(** [categories[categoryIndex]?.items[itemIndex]] *)
Definition lookupItem (categoryIndex itemIndex : nat) : option Item :=
  c ← categories !! categoryIndex; category_items c !! itemIndex.

Definition getEvaluationScore (evaluator : Evaluator)
    (categoryIndex itemIndex : nat) : Z :=
  let rawScore := getEvaluation evaluator categoryIndex itemIndex in
  if decide (rawScore = 0%Z) then 0%Z
  else
    match lookupItem categoryIndex itemIndex with
    | None => 0%Z
    | Some item =>
        if decide (item_type item = radio_2_level_with_sub_check)
        then (if decide (rawScore = 1%Z) then 2%Z else 1%Z)
        else (6 - rawScore)%Z
    end.

(** The tail of [calculateCategoryAverage], on the list of scores the
    [map] produced: filter, then the rounded mean. *)
Definition averageOfScores (mapped : list Z) : Q :=
  let scores := filter (λ score, (score > 0)%Z) mapped in
  if decide (length scores = 0) then 0%Q
  else
    let sum := foldl (λ sum score, (sum + score)%Z) 0%Z scores in
    (inject_Z
       (Js.Math_round (Js.div sum (Z.of_nat (length scores)) * 100)%Q)
     / 100)%Q.

(** [categories[categoryIndex].items] throws a [TypeError] when the index
    names no category: [None]. *)
Definition calculateCategoryAverage (categoryIndex : nat)
    (evaluator : Evaluator) : option Q :=
  category ← categories !! categoryIndex;
  let categoryItems := category_items category in
  Some (averageOfScores
          (imap (λ itemIndex _,
                   getEvaluationScore evaluator categoryIndex itemIndex)
                categoryItems)).

(** The total of [saveEvaluationRecord]: a nested [reduce]. *)
Definition totalScoreOf (evaluatorType : Evaluator) : Z :=
  reduce (λ total category catIndex,
            (total +
             reduce (λ catTotal item itemIndex,
                       (catTotal +
                        getEvaluationScore evaluatorType catIndex itemIndex)%Z)
                    0%Z (category_items category))%Z)
         0%Z categories.

Definition calculateCompletionRate (activeEvaluator : Evaluator) : Z :=
  let totalItems :=
    foldl (λ total category, total + length (category_items category))
          0 categories in
  let completedItems :=
    length
      (filter (λ key,
                 Js.split_head key = evaluatorKey activeEvaluator
                 ∧ (default 0%Z (evaluations !! key) > 0)%Z)
              (map fst (map_to_list evaluations))) in
  Js.Math_round
    (Js.div (Z.of_nat completedItems) (Z.of_nat totalItems) * 100)%Q.

End Scoring.

(** ** Persistent entities *)

Inductive Gender : Type := male | female | other.

Record SupportTarget : Type := mkSupportTarget {
  t_id : string;
  t_userId : string;
  t_name : string;
  t_birthdate : string;
  t_email : string;
  t_gender : Gender;
  t_disability : string;
  t_supportStartDate : string;
  t_notes : string;
  t_createdAt : string;
  t_updatedAt : string
}.

Record EvaluationRecord : Type := mkEvaluationRecord {
  r_id : string;
  r_targetId : string;
  r_targetName : string;
  r_evaluationDate : string;
  r_evaluator : Evaluator;
  r_evaluations : gmap string Z;
  r_subChecks : gmap string bool;
  r_comments : gmap string string;
  r_totalScore : Z;
  r_categoryScores : gmap string Q;
  r_createdAt : string;
  r_updatedAt : string
}.

Record EvaluationDraft : Type := mkEvaluationDraft {
  d_id : string;
  d_targetId : string;
  d_targetName : string;
  d_evaluationDate : string;
  d_evaluator : Evaluator;
  d_evaluations : gmap string Z;
  d_subChecks : gmap string bool;
  d_comments : gmap string string;
  d_completionRate : Z;
  d_lastSaved : string;
  d_createdAt : string;
  d_updatedAt : string
}.

Record SupportGoal : Type := mkSupportGoal {
  g_id : string;
  g_targetId : string;
  g_targetName : string;
  g_goalDate : string;
  g_selectedGoal : string;
  g_actionPlan : string;
  g_successCriteria : string;
  g_supportNeeded : string;
  g_aiRecommendations : option string;
  g_createdAt : string;
  g_updatedAt : string
}.

(** The argument of [DataService.saveEvaluationRecord]:
    [Omit<EvaluationRecord, 'id' | 'createdAt' | 'updatedAt'>]. *)
Record RecordInput : Type := mkRecordInput {
  ri_targetId : string;
  ri_targetName : string;
  ri_evaluationDate : string;
  ri_evaluator : Evaluator;
  ri_evaluations : gmap string Z;
  ri_subChecks : gmap string bool;
  ri_comments : gmap string string;
  ri_totalScore : Z;
  ri_categoryScores : gmap string Q
}.

(** The object [saveDraft] passes to [DataService.saveEvaluationDraft]. *)
Record DraftInput : Type := mkDraftInput {
  di_targetId : string;
  di_targetName : string;
  di_evaluationDate : string;
  di_evaluator : Evaluator;
  di_evaluations : gmap string Z;
  di_subChecks : gmap string bool;
  di_comments : gmap string string;
  di_completionRate : Z
}.

(** The argument of [DataService.saveSupportGoal]. *)
Record GoalInput : Type := mkGoalInput {
  gi_targetId : string;
  gi_targetName : string;
  gi_goalDate : string;
  gi_selectedGoal : string;
  gi_actionPlan : string;
  gi_successCriteria : string;
  gi_supportNeeded : string;
  gi_aiRecommendations : option string
}.

(** What one call reads from the host: [new Date().toISOString()],
    [Date.now()] and [Math.random().toString(36).slice(2, 11)]. *)
Record Env : Type := mkEnv {
  env_iso : string;
  env_millis : N;
  env_random : string
}.

(** [`${prefix}_${Date.now()}_${Math.random()...}`] *)
Definition generateId (prefix : string) (env : Env) : string :=
  prefix +:+ "_" +:+ pretty (env_millis env) +:+ "_" +:+ env_random env.

(** The four collections of [localStorage]. *)
Record Storage : Type := mkStorage {
  supportTargets : list SupportTarget;
  evaluationRecords : list EvaluationRecord;
  evaluationDrafts : list EvaluationDraft;
  supportGoals : list SupportGoal
}.

Definition emptyStorage : Storage := mkStorage [] [] [] [].

(** The argument of [DataService.saveSupportTarget]. *)
Record TargetInput : Type := mkTargetInput {
  ti_userId : string;
  ti_name : string;
  ti_birthdate : string;
  ti_email : string;
  ti_gender : Gender;
  ti_disability : string;
  ti_supportStartDate : string;
  ti_notes : string
}.

(** [Partial<SupportTarget>]: every property may be absent. *)
Record TargetUpdates : Type := mkTargetUpdates {
  tu_id : option string;
  tu_userId : option string;
  tu_name : option string;
  tu_birthdate : option string;
  tu_email : option string;
  tu_gender : option Gender;
  tu_disability : option string;
  tu_supportStartDate : option string;
  tu_notes : option string;
  tu_createdAt : option string;
  tu_updatedAt : option string
}.

(** [Partial<EvaluationRecord>]. *)
Record RecordUpdates : Type := mkRecordUpdates {
  ru_id : option string;
  ru_targetId : option string;
  ru_targetName : option string;
  ru_evaluationDate : option string;
  ru_evaluator : option Evaluator;
  ru_evaluations : option (gmap string Z);
  ru_subChecks : option (gmap string bool);
  ru_comments : option (gmap string string);
  ru_totalScore : option Z;
  ru_categoryScores : option (gmap string Q);
  ru_createdAt : option string;
  ru_updatedAt : option string
}.

(** ** The storage service *)

Module DataService.

Definition setSupportTargets (v : list SupportTarget) (s : Storage) :=
  mkStorage v (evaluationRecords s) (evaluationDrafts s) (supportGoals s).
Definition setEvaluationRecords (v : list EvaluationRecord) (s : Storage) :=
  mkStorage (supportTargets s) v (evaluationDrafts s) (supportGoals s).
Definition setEvaluationDrafts (v : list EvaluationDraft) (s : Storage) :=
  mkStorage (supportTargets s) (evaluationRecords s) v (supportGoals s).
Definition setSupportGoals (v : list SupportGoal) (s : Storage) :=
  mkStorage (supportTargets s) (evaluationRecords s) (evaluationDrafts s) v.

Definition deleteEvaluationRecordsByTarget (targetId : string)
    (s : Storage) : Storage :=
  let records := evaluationRecords s in
  let filteredRecords := filter (λ r, r_targetId r ≠ targetId) records in
  setEvaluationRecords filteredRecords s.

Definition deleteSupportTarget (id : string) (s : Storage)
    : bool * Storage :=
  let targets := supportTargets s in
  let filteredTargets := filter (λ t, t_id t ≠ id) targets in
  if decide (length filteredTargets = length targets) then (false, s)
  else
    let s1 := setSupportTargets filteredTargets s in
    let s2 := deleteEvaluationRecordsByTarget id s1 in
    (true, s2).

Definition saveEvaluationRecord (env : Env) (record : RecordInput)
    (s : Storage) : EvaluationRecord * Storage :=
  let records := evaluationRecords s in
  let now := env_iso env in
  let newRecord :=
    {| r_id := generateId "eval" env;
       r_targetId := ri_targetId record;
       r_targetName := ri_targetName record;
       r_evaluationDate := ri_evaluationDate record;
       r_evaluator := ri_evaluator record;
       r_evaluations := ri_evaluations record;
       r_subChecks := ri_subChecks record;
       r_comments := ri_comments record;
       r_totalScore := ri_totalScore record;
       r_categoryScores := ri_categoryScores record;
       r_createdAt := now;
       r_updatedAt := now |} in
  (newRecord, setEvaluationRecords (records ++ [newRecord]) s).

(** The test of the [findIndex] in [saveEvaluationDraft] and of the
    [find] in [findEvaluationDraft]. *)
Definition draftMatches (targetId evaluationDate : string)
    (evaluator : Evaluator) (d : EvaluationDraft) : Prop :=
  d_targetId d = targetId ∧ d_evaluationDate d = evaluationDate
  ∧ d_evaluator d = evaluator.

Global Instance draftMatches_dec t dt e d : Decision (draftMatches t dt e d).
Proof. unfold draftMatches. apply _. Defined.

(** [{...old, ...draft, updatedAt: now, lastSaved: now}] *)
Definition mergeDraft (old : EvaluationDraft) (draft : DraftInput)
    (now : string) : EvaluationDraft :=
  {| d_id := d_id old;
     d_targetId := di_targetId draft;
     d_targetName := di_targetName draft;
     d_evaluationDate := di_evaluationDate draft;
     d_evaluator := di_evaluator draft;
     d_evaluations := di_evaluations draft;
     d_subChecks := di_subChecks draft;
     d_comments := di_comments draft;
     d_completionRate := di_completionRate draft;
     d_lastSaved := now;
     d_createdAt := d_createdAt old;
     d_updatedAt := now |}.

Definition newDraftOf (env : Env) (draft : DraftInput) : EvaluationDraft :=
  let now := env_iso env in
  {| d_id := generateId "draft" env;
     d_targetId := di_targetId draft;
     d_targetName := di_targetName draft;
     d_evaluationDate := di_evaluationDate draft;
     d_evaluator := di_evaluator draft;
     d_evaluations := di_evaluations draft;
     d_subChecks := di_subChecks draft;
     d_comments := di_comments draft;
     d_completionRate := di_completionRate draft;
     d_lastSaved := now;
     d_createdAt := now;
     d_updatedAt := now |}.

Definition saveEvaluationDraft (env : Env) (draft : DraftInput)
    (s : Storage) : EvaluationDraft * Storage :=
  let drafts := evaluationDrafts s in
  let now := env_iso env in
  match list_find (draftMatches (di_targetId draft)
                     (di_evaluationDate draft) (di_evaluator draft))
                  drafts with
  | Some (existingIndex, existing) =>
      let updated := mergeDraft existing draft now in
      (updated, setEvaluationDrafts (<[existingIndex := updated]> drafts) s)
  | None =>
      let newDraft := newDraftOf env draft in
      (newDraft, setEvaluationDrafts (drafts ++ [newDraft]) s)
  end.

Definition loadEvaluationDraft (draftId : string) (s : Storage)
    : option EvaluationDraft :=
  snd <$> list_find (λ d, d_id d = draftId) (evaluationDrafts s).

Definition deleteEvaluationDraft (draftId : string) (s : Storage)
    : bool * Storage :=
  let drafts := evaluationDrafts s in
  let filteredDrafts := filter (λ d, d_id d ≠ draftId) drafts in
  if decide (length filteredDrafts = length drafts) then (false, s)
  else (true, setEvaluationDrafts filteredDrafts s).

Definition findEvaluationDraft (targetId evaluationDate : string)
    (evaluator : Evaluator) (s : Storage) : option EvaluationDraft :=
  snd <$> list_find (draftMatches targetId evaluationDate evaluator)
            (evaluationDrafts s).

Definition goalMatches (targetId goalDate : string) (g : SupportGoal)
    : Prop :=
  g_targetId g = targetId ∧ g_goalDate g = goalDate.

Global Instance goalMatches_dec t dt g : Decision (goalMatches t dt g).
Proof. unfold goalMatches. apply _. Defined.

(** [{...old, ...goal, updatedAt: now}]; an absent optional
    [aiRecommendations] in [goal] leaves the old one in place. *)
Definition mergeGoal (old : SupportGoal) (goal : GoalInput) (now : string)
    : SupportGoal :=
  {| g_id := g_id old;
     g_targetId := gi_targetId goal;
     g_targetName := gi_targetName goal;
     g_goalDate := gi_goalDate goal;
     g_selectedGoal := gi_selectedGoal goal;
     g_actionPlan := gi_actionPlan goal;
     g_successCriteria := gi_successCriteria goal;
     g_supportNeeded := gi_supportNeeded goal;
     g_aiRecommendations :=
       match gi_aiRecommendations goal with
       | Some a => Some a
       | None => g_aiRecommendations old
       end;
     g_createdAt := g_createdAt old;
     g_updatedAt := now |}.

Definition saveSupportGoal (env : Env) (goal : GoalInput) (s : Storage)
    : SupportGoal * Storage :=
  let goals := supportGoals s in
  let now := env_iso env in
  match list_find (goalMatches (gi_targetId goal) (gi_goalDate goal))
                  goals with
  | Some (existingIndex, existing) =>
      let updated := mergeGoal existing goal now in
      (updated, setSupportGoals (<[existingIndex := updated]> goals) s)
  | None =>
      let newGoal :=
        {| g_id := generateId "goal" env;
           g_targetId := gi_targetId goal;
           g_targetName := gi_targetName goal;
           g_goalDate := gi_goalDate goal;
           g_selectedGoal := gi_selectedGoal goal;
           g_actionPlan := gi_actionPlan goal;
           g_successCriteria := gi_successCriteria goal;
           g_supportNeeded := gi_supportNeeded goal;
           g_aiRecommendations := gi_aiRecommendations goal;
           g_createdAt := now;
           g_updatedAt := now |} in
      (newGoal, setSupportGoals (goals ++ [newGoal]) s)
  end.

Definition saveSupportTarget (env : Env) (target : TargetInput) (s : Storage)
    : SupportTarget * Storage :=
  let targets := supportTargets s in
  let now := env_iso env in
  let newTarget :=
    {| t_id := generateId "target" env;
       t_userId := ti_userId target;
       t_name := ti_name target;
       t_birthdate := ti_birthdate target;
       t_email := ti_email target;
       t_gender := ti_gender target;
       t_disability := ti_disability target;
       t_supportStartDate := ti_supportStartDate target;
       t_notes := ti_notes target;
       t_createdAt := now;
       t_updatedAt := now |} in
  (newTarget, setSupportTargets (targets ++ [newTarget]) s).

(** [{...old, ...updates, updatedAt: now}] *)
Definition mergeTarget (old : SupportTarget) (updates : TargetUpdates)
    (now : string) : SupportTarget :=
  {| t_id := default (t_id old) (tu_id updates);
     t_userId := default (t_userId old) (tu_userId updates);
     t_name := default (t_name old) (tu_name updates);
     t_birthdate := default (t_birthdate old) (tu_birthdate updates);
     t_email := default (t_email old) (tu_email updates);
     t_gender := default (t_gender old) (tu_gender updates);
     t_disability := default (t_disability old) (tu_disability updates);
     t_supportStartDate :=
       default (t_supportStartDate old) (tu_supportStartDate updates);
     t_notes := default (t_notes old) (tu_notes updates);
     t_createdAt := default (t_createdAt old) (tu_createdAt updates);
     t_updatedAt := now |}.

Definition updateSupportTarget (env : Env) (id : string)
    (updates : TargetUpdates) (s : Storage)
    : option SupportTarget * Storage :=
  let targets := supportTargets s in
  match list_find (λ t, t_id t = id) targets with
  | None => (None, s)
  | Some (index, old) =>
      let updated := mergeTarget old updates (env_iso env) in
      (Some updated, setSupportTargets (<[index := updated]> targets) s)
  end.

(** [{...old, ...updates, updatedAt: now}] *)
Definition mergeRecord (old : EvaluationRecord) (updates : RecordUpdates)
    (now : string) : EvaluationRecord :=
  {| r_id := default (r_id old) (ru_id updates);
     r_targetId := default (r_targetId old) (ru_targetId updates);
     r_targetName := default (r_targetName old) (ru_targetName updates);
     r_evaluationDate :=
       default (r_evaluationDate old) (ru_evaluationDate updates);
     r_evaluator := default (r_evaluator old) (ru_evaluator updates);
     r_evaluations := default (r_evaluations old) (ru_evaluations updates);
     r_subChecks := default (r_subChecks old) (ru_subChecks updates);
     r_comments := default (r_comments old) (ru_comments updates);
     r_totalScore := default (r_totalScore old) (ru_totalScore updates);
     r_categoryScores :=
       default (r_categoryScores old) (ru_categoryScores updates);
     r_createdAt := default (r_createdAt old) (ru_createdAt updates);
     r_updatedAt := now |}.

Definition updateEvaluationRecord (env : Env) (id : string)
    (updates : RecordUpdates) (s : Storage)
    : option EvaluationRecord * Storage :=
  let records := evaluationRecords s in
  match list_find (λ r, r_id r = id) records with
  | None => (None, s)
  | Some (index, old) =>
      let updated := mergeRecord old updates (env_iso env) in
      (Some updated, setEvaluationRecords (<[index := updated]> records) s)
  end.

Definition deleteEvaluationRecord (id : string) (s : Storage)
    : bool * Storage :=
  let records := evaluationRecords s in
  let filteredRecords := filter (λ r, r_id r ≠ id) records in
  if decide (length filteredRecords = length records) then (false, s)
  else (true, setEvaluationRecords filteredRecords s).

Definition getEvaluationRecordsByTarget (targetId : string) (s : Storage)
    : list EvaluationRecord :=
  filter (λ r, r_targetId r = targetId) (evaluationRecords s).

Definition getSupportGoalsByTarget (targetId : string) (s : Storage)
    : list SupportGoal :=
  filter (λ g, g_targetId g = targetId) (supportGoals s).

Definition findSupportGoal (targetId goalDate : string) (s : Storage)
    : option SupportGoal :=
  snd <$> list_find (goalMatches targetId goalDate) (supportGoals s).

Definition deleteSupportGoal (goalId : string) (s : Storage)
    : bool * Storage :=
  let goals := supportGoals s in
  let filteredGoals := filter (λ g, g_id g ≠ goalId) goals in
  if decide (length filteredGoals = length goals) then (false, s)
  else (true, setSupportGoals filteredGoals s).

(** [convertDraftToRecord]: the scores are placeholders, a zero total and
    a zero for each of the three category names. *)
Definition convertDraftToRecord (env : Env) (draftId : string) (s : Storage)
    : option EvaluationRecord * Storage :=
  match loadEvaluationDraft draftId s with
  | None => (None, s)
  | Some draft =>
      let totalScore := 0%Z in
      let categoryScores : gmap string Q :=
        <["III 働く場での行動・態度" := 0%Q]>
          (<["II 働く場での対人関係" := 0%Q]>
             (<["I 日常生活" := 0%Q]> ∅)) in
      let evaluationRecord :=
        {| ri_targetId := d_targetId draft;
           ri_targetName := d_targetName draft;
           ri_evaluationDate := d_evaluationDate draft;
           ri_evaluator := d_evaluator draft;
           ri_evaluations := d_evaluations draft;
           ri_subChecks := d_subChecks draft;
           ri_comments := d_comments draft;
           ri_totalScore := totalScore;
           ri_categoryScores := categoryScores |} in
      let '(saved, s1) := saveEvaluationRecord env evaluationRecord s in
      let '(_, s2) := deleteEvaluationDraft draftId s1 in
      (Some saved, s2)
  end.

End DataService.

(** ** The component's save, draft and finalize actions

    Of the component state only the part the actions read is kept; the
    transient messages, alerts and the refresh of the state copies of the
    collections are display effects and are left out. *)

Record Session : Type := mkSession {
  ss_supportTargets : list SupportTarget;
  selectedTargetId : string;
  currentDate : string;
  activeEvaluator : Evaluator;
  evaluations : gmap string Z;
  detailChecks : gmap string bool;
  comments : gmap string string
}.

(** [supportTargets.find(target => target.id === selectedTargetId)] *)
Definition selectedTarget (ss : Session) : option SupportTarget :=
  snd <$> list_find (λ target, t_id target = selectedTargetId ss)
            (ss_supportTargets ss).

(** The [forEach] of [saveEvaluationRecord] that fills [categoryScores]. *)
Definition categoryScoresOf (evals : gmap string Z) (evaluatorType : Evaluator)
    : option (gmap string Q) :=
  foldl (λ acc ix,
           categoryScores ← acc;
           average ← calculateCategoryAverage evals ix.1 evaluatorType;
           Some (<[category_name ix.2 := average]> categoryScores))
        (Some ∅) (imap pair categories).

(** The component's [saveEvaluationRecord]: [None] when it returns before
    saving or when the computation of the scores throws. *)
Definition saveEvaluationRecord (env : Env) (ss : Session)
    (evaluatorType : Evaluator) (s : Storage)
    : option EvaluationRecord * Storage :=
  if decide (selectedTargetId ss = "") then (None, s)
  else
    match selectedTarget ss with
    | None => (None, s)
    | Some target =>
        let totalScore := totalScoreOf (evaluations ss) evaluatorType in
        match categoryScoresOf (evaluations ss) evaluatorType with
        | None => (None, s)
        | Some categoryScores =>
            let evaluationRecord :=
              {| ri_targetId := selectedTargetId ss;
                 ri_targetName := t_name target;
                 ri_evaluationDate := currentDate ss;
                 ri_evaluator := evaluatorType;
                 ri_evaluations := evaluations ss;
                 ri_subChecks := detailChecks ss;
                 ri_comments := comments ss;
                 ri_totalScore := totalScore;
                 ri_categoryScores := categoryScores |} in
            let '(saved, s') :=
              DataService.saveEvaluationRecord env evaluationRecord s in
            (Some saved, s')
        end
    end.

Definition saveDraft (env : Env) (ss : Session) (s : Storage)
    : option EvaluationDraft * Storage :=
  if decide (selectedTargetId ss = "") then (None, s)
  else
    match selectedTarget ss with
    | None => (None, s)
    | Some target =>
        let completionRate :=
          calculateCompletionRate (evaluations ss) (activeEvaluator ss) in
        let draftData :=
          {| di_targetId := selectedTargetId ss;
             di_targetName := t_name target;
             di_evaluationDate := currentDate ss;
             di_evaluator := activeEvaluator ss;
             di_evaluations := evaluations ss;
             di_subChecks := detailChecks ss;
             di_comments := comments ss;
             di_completionRate := completionRate |} in
        let '(saved, s') := DataService.saveEvaluationDraft env draftData s in
        (Some saved, s')
    end.

(** The total of [finalizeDraft]. *)
Definition finalizeTotalScore (draft : EvaluationDraft) : Z :=
  reduce (λ total category catIndex,
            (total +
             reduce (λ catTotal item itemIndex,
                       let key :=
                         responseKey (d_evaluator draft) catIndex itemIndex in
                       let rawScore :=
                         default 0%Z (d_evaluations draft !! key) in
                       if decide (rawScore = 0%Z) then catTotal
                       else
                         let convertedScore :=
                           if decide (item_type item
                                      = radio_2_level_with_sub_check)
                           then (if decide (rawScore = 1%Z) then 2%Z else 1%Z)
                           else (6 - rawScore)%Z in
                         (catTotal + convertedScore)%Z)
                    0%Z (category_items category))%Z)
         0%Z categories.

(** One round of the outer [forEach] of [finalizeDraft]: the pair
    [(catTotal, catCount)] after the inner [forEach]. *)
Definition finalizeCategorySums (draft : EvaluationDraft) (catIndex : nat)
    (category : Category) : Z * nat :=
  foldl (λ acc ix,
           let '(catTotal, catCount) := acc in
           let key := responseKey (d_evaluator draft) catIndex ix.1 in
           let rawScore := default 0%Z (d_evaluations draft !! key) in
           if decide (rawScore > 0)%Z then
             let convertedScore :=
               if decide (item_type ix.2 = radio_2_level_with_sub_check)
               then (if decide (rawScore = 1%Z) then 2%Z else 1%Z)
               else (6 - rawScore)%Z in
             ((catTotal + convertedScore)%Z, S catCount)
           else (catTotal, catCount))
        (0%Z, 0) (imap pair (category_items category)).

(** [catCount > 0 ? catTotal / catCount : 0] *)
Definition finalizeCategoryScore (draft : EvaluationDraft) (catIndex : nat)
    (category : Category) : Q :=
  let '(catTotal, catCount) := finalizeCategorySums draft catIndex category in
  if decide (0 < catCount) then Js.div catTotal (Z.of_nat catCount) else 0%Q.

Definition finalizeCategoryScores (draft : EvaluationDraft) : gmap string Q :=
  foldl (λ categoryScores ix,
           <[category_name ix.2 := finalizeCategoryScore draft ix.1 ix.2]>
             categoryScores)
        ∅ (imap pair categories).

(** [finalizeDraft]: [None] for the early return on a missing draft. *)
Definition finalizeDraft (env : Env) (draftId : string) (s : Storage)
    : option EvaluationRecord * Storage :=
  match DataService.loadEvaluationDraft draftId s with
  | None => (None, s)
  | Some draft =>
      let totalScore := finalizeTotalScore draft in
      let categoryScores := finalizeCategoryScores draft in
      let evaluationRecord :=
        {| ri_targetId := d_targetId draft;
           ri_targetName := d_targetName draft;
           ri_evaluationDate := d_evaluationDate draft;
           ri_evaluator := d_evaluator draft;
           ri_evaluations := d_evaluations draft;
           ri_subChecks := d_subChecks draft;
           ri_comments := d_comments draft;
           ri_totalScore := totalScore;
           ri_categoryScores := categoryScores |} in
      let '(saved, s1) :=
        DataService.saveEvaluationRecord env evaluationRecord s in
      let '(_, s2) := DataService.deleteEvaluationDraft draftId s1 in
      (Some saved, s2)
  end.

(** ** Further component functions *)

(** [handleEvaluation]: [{...prev, [key]: score}] on the [evaluations]
    state, with the key of the active evaluator. *)
Definition handleEvaluation (ss : Session) (categoryIndex itemIndex : nat)
    (score : Z) : Session :=
  let key := responseKey (activeEvaluator ss) categoryIndex itemIndex in
  {| ss_supportTargets := ss_supportTargets ss;
     selectedTargetId := selectedTargetId ss;
     currentDate := currentDate ss;
     activeEvaluator := activeEvaluator ss;
     evaluations := <[key := score]> (evaluations ss);
     detailChecks := detailChecks ss;
     comments := comments ss |}.

(** [handleComment]: [{...prev, [key]: comment}] on the [comments] state. *)
Definition handleComment (ss : Session) (categoryIndex itemIndex : nat)
    (comment : string) : Session :=
  let key := responseKey (activeEvaluator ss) categoryIndex itemIndex in
  {| ss_supportTargets := ss_supportTargets ss;
     selectedTargetId := selectedTargetId ss;
     currentDate := currentDate ss;
     activeEvaluator := activeEvaluator ss;
     evaluations := evaluations ss;
     detailChecks := detailChecks ss;
     comments := <[key := comment]> (comments ss) |}.

(** [comments[key] || ''] *)
Definition getComment (ss : Session) (evaluator : Evaluator)
    (categoryIndex itemIndex : nat) : string :=
  default "" (comments ss !! responseKey evaluator categoryIndex itemIndex).

(** [calculateProgress]: the keys that start with the active evaluator,
    whatever their value. *)
Definition calculateProgress (evals : gmap string Z)
    (activeEvaluator : Evaluator) : Z :=
  let totalItems :=
    foldl (λ sum cat, sum + length (category_items cat)) 0 categories in
  let evaluatedItems :=
    length
      (filter (λ key, String.prefix (evaluatorKey activeEvaluator) key = true)
              (map fst (map_to_list evals))) in
  Js.Math_round
    (Js.div (Z.of_nat evaluatedItems) (Z.of_nat totalItems) * 100)%Q.

(** The sub-check panel of [EvaluationItem]:
    [item.subCheckTrigger && item.subCheckTrigger.includes(currentScore)],
    on the raw response of the active evaluator.  An item without trigger
    has the empty list here. *)
Definition showSubCheck (evals : gmap string Z) (activeEvaluator : Evaluator)
    (item : Item) (categoryIndex itemIndex : nat) : bool :=
  let currentScore := getEvaluation evals activeEvaluator categoryIndex
                        itemIndex in
  bool_decide (currentScore ∈ item_subCheckTrigger item).

(** The [hasDetailChecks] entry of the analysis payload:
    [item.subCheckTrigger.includes(getEvaluationScore(...))]. *)
Definition hasDetailChecks (evals : gmap string Z)
    (activeEvaluator : Evaluator) (item : Item)
    (categoryIndex itemIndex : nat) : bool :=
  bool_decide
    (getEvaluationScore evals activeEvaluator categoryIndex itemIndex
     ∈ item_subCheckTrigger item).

(** An entry of the difference analysis (the item name, a display text,
    is left out). *)
Record ItemAnalysis : Type := mkItemAnalysis {
  ia_category : string;
  ia_staffScore : Z;
  ia_selfScore : Z;
  ia_familyScore : Z;
  ia_maxDiff : Z;
  ia_categoryIndex : nat;
  ia_itemIndex : nat
}.

(** [Math.max(...l)] and [Math.min(...l)] on a list with a first element. *)
Definition Math_max (x : Z) (l : list Z) : Z := foldl Z.max x l.
Definition Math_min (x : Z) (l : list Z) : Z := foldl Z.min x l.

(** [validScores.length >= 2 ? max - min : 0] *)
Definition maxDiffOf (validScores : list Z) : Z :=
  match validScores with
  | x :: (_ :: _) as rest => (Math_max x rest - Math_min x rest)%Z
  | _ => 0%Z
  end.

(** The three buckets of [generateDifferenceAnalysis]. *)
Record DifferenceBuckets : Type := mkBuckets {
  highDiffItems : list ItemAnalysis;
  moderateDiffItems : list ItemAnalysis;
  lowDiffItems : list ItemAnalysis
}.

(** The body of the inner [forEach] of [generateDifferenceAnalysis]. *)
Definition classifyItem (evals : gmap string Z) (category : Category)
    (catIndex itemIndex : nat) (acc : DifferenceBuckets)
    : DifferenceBuckets :=
  let staffScore := getEvaluationScore evals staff catIndex itemIndex in
  let selfScore := getEvaluationScore evals self catIndex itemIndex in
  let familyScore := getEvaluationScore evals family catIndex itemIndex in
  if decide ((staffScore > 0)%Z ∨ (selfScore > 0)%Z ∨ (familyScore > 0)%Z)
  then
    let validScores :=
      filter (λ score, (score > 0)%Z) [staffScore; selfScore; familyScore] in
    let maxDiff := maxDiffOf validScores in
    let itemAnalysis :=
      {| ia_category := category_name category;
         ia_staffScore := staffScore;
         ia_selfScore := selfScore;
         ia_familyScore := familyScore;
         ia_maxDiff := maxDiff;
         ia_categoryIndex := catIndex;
         ia_itemIndex := itemIndex |} in
    if decide (maxDiff >= 3)%Z then
      mkBuckets (highDiffItems acc ++ [itemAnalysis])
                (moderateDiffItems acc) (lowDiffItems acc)
    else if decide (maxDiff = 2%Z) then
      mkBuckets (highDiffItems acc)
                (moderateDiffItems acc ++ [itemAnalysis]) (lowDiffItems acc)
    else if decide (maxDiff <= 1)%Z then
      mkBuckets (highDiffItems acc) (moderateDiffItems acc)
                (lowDiffItems acc ++ [itemAnalysis])
    else acc
  else acc.

(** The two nested [forEach] of [generateDifferenceAnalysis], which fill
    the three buckets. *)
Definition differenceBuckets (evals : gmap string Z) : DifferenceBuckets :=
  reduce (λ acc category catIndex,
            reduce (λ acc' _ itemIndex,
                      classifyItem evals category catIndex itemIndex acc')
                   acc (category_items category))
         (mkBuckets [] [] []) categories.

(** The form of the target editor and [handleSaveTarget]: [None] for the
    early return on a missing required field. *)
Definition handleSaveTarget (env : Env) (formData : TargetInput)
    (editingTarget : option SupportTarget) (s : Storage) : option Storage :=
  if decide (ti_userId formData = "" ∨ ti_name formData = ""
             ∨ ti_birthdate formData = "")
  then None
  else
    match editingTarget with
    | Some editing =>
        Some (DataService.updateSupportTarget env (t_id editing)
                {| tu_id := None;
                   tu_userId := Some (ti_userId formData);
                   tu_name := Some (ti_name formData);
                   tu_birthdate := Some (ti_birthdate formData);
                   tu_email := Some (ti_email formData);
                   tu_gender := Some (ti_gender formData);
                   tu_disability :=
                     Some (ti_disability formData);
                   tu_supportStartDate :=
                     Some (ti_supportStartDate formData);
                   tu_notes := Some (ti_notes formData);
                   tu_createdAt := None;
                   tu_updatedAt := None |} s).2
    | None => Some (DataService.saveSupportTarget env formData s).2
    end.

(** * Properties *)

(** ** Specification-side vocabulary *)

(** Sum of a list of integers. *)
Definition sumZ (l : list Z) : Z := foldr Z.add 0%Z l.

(** All item positions [(categoryIndex, itemIndex)] of the checklist. *)
Definition positions : list (nat * nat) :=
  concat (imap (λ c category, imap (λ i _, (c, i)) (category_items category))
               categories).

(** The items of a category ([[]] when the index names none). *)
Definition itemsOf (categoryIndex : nat) : list Item :=
  default [] (category_items <$> categories !! categoryIndex).

(** A raw response is in the domain of its item: 0 (unanswered) or a
    1-based index into the item's options. *)
Definition rawInDomain (item : Item) (raw : Z) : Prop :=
  (0 ≤ raw ≤ Z.of_nat (item_options item))%Z.

Global Instance rawInDomain_dec item raw : Decision (rawInDomain item raw).
Proof. unfold rawInDomain. apply _. Defined.

(** All responses of an evaluator in one category are in domain. *)
Definition categoryInDomain (evals : gmap string Z) (e : Evaluator)
    (c : nat) : Prop :=
  Forall (λ ix : nat * Item, rawInDomain ix.2 (getEvaluation evals e c ix.1))
         (imap pair (itemsOf c)).

Global Instance categoryInDomain_dec evals e c :
  Decision (categoryInDomain evals e c).
Proof. unfold categoryInDomain. apply _. Defined.

(** The composite keys of every evaluator and item position. *)
Definition allKeys : list string :=
  e ← [self; staff; family]; p ← positions; [responseKey e p.1 p.2].

(** A well-formed response set: every key is the composite key of an
    evaluator and an item, and no stored response is negative. *)
Definition wellFormed (evals : gmap string Z) : Prop :=
  map_Forall (λ key raw, (0 ≤ raw)%Z ∧ key ∈ allKeys) evals.

Global Instance wellFormed_dec evals : Decision (wellFormed evals).
Proof. unfold wellFormed. apply _. Defined.

(** Rounding to two decimal places, half up: [r] is a whole number of
    hundredths and lies within half a hundredth of [x]. *)
Definition roundedTo2 (x r : Q) : Prop :=
  ∃ k : Z, (r == inject_Z k / 100)%Q
           ∧ (x - (1 # 200) < r)%Q ∧ (r <= x + (1 # 200))%Q.

(** The arithmetic mean of a non-empty list of integers. *)
Definition mean (l : list Z) : Q :=
  (inject_Z (sumZ l) / inject_Z (Z.of_nat (length l)))%Q.

(** The key triple of a draft and of a record. *)
Definition draftKey (d : EvaluationDraft) : string * string * Evaluator :=
  (d_targetId d, d_evaluationDate d, d_evaluator d).

Definition recordKey (r : EvaluationRecord) : string * string * Evaluator :=
  (r_targetId r, r_evaluationDate r, r_evaluator r).

(** ** Lemmas on the array combinators *)

Section Combinators.
Context {A B C : Type}.

Lemma foldl_imap_ext (F G : B → C → B) (h : nat → A → C) (l : list A)
    (init : B) :
  (∀ acc i x, l !! i = Some x → F acc (h i x) = G acc (h i x)) →
  foldl F init (imap h l) = foldl G init (imap h l).
Proof.
  revert h init. induction l as [|x l IH]; intros h init Hext; [done|].
  cbn. rewrite (Hext init 0 x eq_refl).
  apply IH. intros acc i y Hi. apply (Hext acc (S i) y Hi).
Qed.

End Combinators.

Lemma reduce_ext {A B : Type} (f g : B → A → nat → B) (init : B)
    (l : list A) :
  (∀ acc i x, l !! i = Some x → f acc x i = g acc x i) →
  reduce f init l = reduce g init l.
Proof.
  intros Hext. unfold reduce.
  apply (foldl_imap_ext (λ acc ix, f acc ix.2 ix.1)
           (λ acc ix, g acc ix.2 ix.1) pair).
  intros acc i x Hi. cbn. by apply Hext.
Qed.

Lemma foldl_add_sumZ {C : Type} (g : C → Z) (l : list C) (init : Z) :
  foldl (λ sum c, (sum + g c)%Z) init l = (init + sumZ (g <$> l))%Z.
Proof.
  revert init. induction l as [|x l IH]; intros init; cbn.
  - unfold sumZ; cbn; lia.
  - rewrite IH. unfold sumZ; cbn; lia.
Qed.

Lemma reduce_add_sumZ {A : Type} (f : nat → A → Z) (init : Z) (l : list A) :
  reduce (λ acc x i, (acc + f i x)%Z) init l = (init + sumZ (imap f l))%Z.
Proof.
  unfold reduce.
  rewrite (foldl_add_sumZ (λ ix : nat * A, f ix.1 ix.2)).
  by rewrite fmap_imap.
Qed.

Lemma sumZ_app (l1 l2 : list Z) : sumZ (l1 ++ l2) = (sumZ l1 + sumZ l2)%Z.
Proof.
  unfold sumZ. induction l1 as [|x l1 IH]; cbn; [done|]. rewrite IH. lia.
Qed.

Lemma sumZ_Permutation (l1 l2 : list Z) : l1 ≡ₚ l2 → sumZ l1 = sumZ l2.
Proof. unfold sumZ. induction 1; cbn; lia. Qed.

Lemma sumZ_filter_nonzero (l : list Z) :
  sumZ (filter (λ z, z ≠ 0%Z) l) = sumZ l.
Proof.
  induction l as [|x l IH]; [done|].
  rewrite filter_cons. unfold sumZ in *. case_decide; cbn; lia.
Qed.

(** ** The score transform *)

(** The score is the same function of the raw response and the item. *)
Definition scoreFromRaw (c i : nat) (raw : Z) : Z :=
  if decide (raw = 0%Z) then 0%Z
  else
    match lookupItem c i with
    | None => 0%Z
    | Some item =>
        if decide (item_type item = radio_2_level_with_sub_check)
        then (if decide (raw = 1%Z) then 2%Z else 1%Z)
        else (6 - raw)%Z
    end.

Lemma getEvaluationScore_raw evals e c i :
  getEvaluationScore evals e c i = scoreFromRaw c i (getEvaluation evals e c i).
Proof. reflexivity. Qed.

Lemma lookupItem_Some c i category item :
  categories !! c = Some category →
  category_items category !! i = Some item →
  lookupItem c i = Some item.
Proof. intros Hc Hi. unfold lookupItem. by rewrite Hc. Qed.

(** C1.  [getEvaluationScore] maps an unanswered response (raw 0) to 0
    whatever the item; on a 2-level item raw 1 gives 2 and raw 2 gives 1;
    on a 5-level item, with or without sub-checks, raw [r] in 1..5 gives
    [6 - r]; and the result is determined by the item position and the raw
    response stored for it, nothing else. *)
Theorem getEvaluationScore_transform
    (evals : gmap string Z) (e : Evaluator) (c i : nat) (item : Item) :
  lookupItem c i = Some item →
  let raw := getEvaluation evals e c i in
  (raw = 0%Z → getEvaluationScore evals e c i = 0%Z)
  ∧ (item_type item = radio_2_level_with_sub_check →
       (raw = 1%Z → getEvaluationScore evals e c i = 2%Z)
       ∧ (raw = 2%Z → getEvaluationScore evals e c i = 1%Z))
  ∧ (item_type item = radio_5_level
       ∨ item_type item = radio_5_level_with_sub_check →
       (1 ≤ raw ≤ 5)%Z →
       getEvaluationScore evals e c i = (6 - raw)%Z
       ∧ (1 ≤ getEvaluationScore evals e c i ≤ 5)%Z)
  ∧ (∀ (evals' : gmap string Z) (e' : Evaluator),
       getEvaluation evals' e' c i = raw →
       getEvaluationScore evals' e' c i = getEvaluationScore evals e c i).
Proof.
  intros Hitem raw. rewrite getEvaluationScore_raw. fold raw.
  unfold scoreFromRaw. rewrite Hitem.
  split; [|split; [|split]].
  - intros ->. done.
  - intros Hty. split; intros Hraw; rewrite Hraw;
      repeat case_decide; congruence || lia.
  - intros Hty Hraw. rewrite decide_False by lia.
    rewrite decide_False by (destruct Hty as [-> | ->]; done). lia.
  - intros evals' e' Hraw. rewrite getEvaluationScore_raw, Hraw.
    unfold scoreFromRaw. by rewrite Hitem.
Qed.

(** Raw 0 is normalized to 0 at every position, valid or not. *)
Lemma getEvaluationScore_unanswered evals e c i :
  getEvaluation evals e c i = 0%Z → getEvaluationScore evals e c i = 0%Z.
Proof. intros H. rewrite getEvaluationScore_raw, H. done. Qed.

Definition sampleResponses : gmap string Z :=
  <["staff-0-0" := 1%Z]> (<["staff-0-1" := 3%Z]> ∅).

Lemma getEvaluationScore_transform_witness :
  getEvaluationScore sampleResponses staff 0 1 = 3%Z.
Proof.
  destruct (getEvaluationScore_transform sampleResponses staff 0 1
              (plain "I-2") eq_refl) as (_ & _ & H5 & _).
  apply H5; [by left | by vm_compute].
Defined.

(** ** Category averages *)

(** Every item of the table has the number of options its type says. *)
Lemma item_options_by_type c i item :
  lookupItem c i = Some item →
  item_options item
  = if decide (item_type item = radio_2_level_with_sub_check) then 2 else 5.
Proof.
  unfold lookupItem. intros H.
  destruct (categories !! c) as [category|] eqn:Hc; [|done]. cbn in H.
  assert (Hin : item ∈ mjoin (category_items <$> categories)).
  { apply list_elem_of_join. exists (category_items category). split.
    - by eapply list_elem_of_lookup_2.
    - apply list_elem_of_fmap. exists category. split; [done|].
      by eapply list_elem_of_lookup_2. }
  clear H. revert item Hin. apply Forall_forall.
  compute_done.
Qed.

(** An in-domain raw response is normalized to 0 exactly when it is 0, and
    to a positive score otherwise. *)
Lemma scoreFromRaw_in_domain c i item raw :
  lookupItem c i = Some item → rawInDomain item raw →
  (0 ≤ scoreFromRaw c i raw)%Z ∧ (scoreFromRaw c i raw = 0%Z ↔ raw = 0%Z).
Proof.
  intros Hitem [Hlo Hhi]. pose proof (item_options_by_type _ _ _ Hitem) as Hopt.
  unfold scoreFromRaw. rewrite Hitem.
  repeat case_decide; lia.
Qed.

Lemma Math_round_hundredths (x : Q) :
  roundedTo2 x (inject_Z (Js.Math_round (x * 100)) / 100)%Q.
Proof.
  unfold roundedTo2, Js.Math_round.
  exists (Qfloor (x * 100 + (1 # 2))). split; [reflexivity|].
  pose proof (Qfloor_le (x * 100 + (1 # 2))) as Hle.
  pose proof (Qlt_floor (x * 100 + (1 # 2))) as Hlt.
  rewrite inject_Z_plus in Hlt.
  set (k := inject_Z (Qfloor (x * 100 + (1 # 2)))) in *.
  change (inject_Z 1) with 1%Q in Hlt.
  unfold Qdiv. change (/ 100)%Q with (1 # 100)%Q. split; lra.
Qed.

Lemma filter_positive_nonzero (l : list Z) :
  Forall (λ z, (0 ≤ z)%Z) l →
  filter (λ score, (score > 0)%Z) l = filter (λ s, s ≠ 0%Z) l.
Proof.
  induction 1 as [|x l Hx Hl IH]; [done|].
  rewrite !filter_cons, IH.
  repeat case_decide; (done || lia).
Qed.

(** The tail of [calculateCategoryAverage] on non-negative scores: 0 when
    no score is non-zero, else the mean of the non-zero scores rounded to
    two decimals. *)
Lemma averageOfScores_spec (mapped : list Z) :
  Forall (λ z, (0 ≤ z)%Z) mapped →
  let answered := filter (λ s, s ≠ 0%Z) mapped in
  (answered = [] → averageOfScores mapped = 0%Q)
  ∧ (answered ≠ [] → roundedTo2 (mean answered) (averageOfScores mapped)).
Proof.
  intros Hnn answered. unfold averageOfScores.
  rewrite (filter_positive_nonzero _ Hnn). fold answered.
  split; intros Hans.
  - rewrite Hans. done.
  - rewrite decide_False by (by destruct answered).
    rewrite (foldl_add_sumZ id), list_fmap_id, Z.add_0_l.
    apply Math_round_hundredths.
Qed.

Lemma averageOfScores_Permutation (l1 l2 : list Z) :
  l1 ≡ₚ l2 → averageOfScores l1 = averageOfScores l2.
Proof.
  intros Hp. unfold averageOfScores.
  assert (Hf : filter (λ score, (score > 0)%Z) l1
               ≡ₚ filter (λ score, (score > 0)%Z) l2) by by rewrite Hp.
  rewrite !(foldl_add_sumZ id), !list_fmap_id.
  by rewrite (Permutation_length Hf), (sumZ_Permutation _ _ Hf).
Qed.

(** C3.  For a category of the table and responses in domain,
    [calculateCategoryAverage] returns a value: 0 when no item of the
    category is answered, otherwise the arithmetic mean of the non-zero
    normalized scores rounded to two decimals.  The value does not change
    when the scores are taken in another order, and it is the same for any
    response mapping with the same raw responses on the category. *)
Theorem calculateCategoryAverage_spec
    (evals : gmap string Z) (c : nat) (e : Evaluator) (category : Category) :
  categories !! c = Some category →
  categoryInDomain evals e c →
  let scores :=
    imap (λ i _, getEvaluationScore evals e c i) (category_items category) in
  let answered := filter (λ s, s ≠ 0%Z) scores in
  ∃ avg : Q,
    calculateCategoryAverage evals c e = Some avg
    ∧ (answered = [] → avg = 0%Q)
    ∧ (answered ≠ [] → roundedTo2 (mean answered) avg)
    ∧ (∀ scores', scores' ≡ₚ scores → averageOfScores scores' = avg)
    ∧ (∀ evals' : gmap string Z,
         (∀ i, i < length (category_items category) →
               getEvaluation evals' e c i = getEvaluation evals e c i) →
         calculateCategoryAverage evals' c e = Some avg).
Proof.
  intros Hc Hdom scores answered.
  exists (averageOfScores scores).
  assert (Hnn : Forall (λ z, (0 ≤ z)%Z) scores).
  { unfold categoryInDomain, itemsOf in Hdom. rewrite Hc in Hdom. cbn in Hdom.
    apply Forall_lookup. intros i z Hz.
    unfold scores in Hz. rewrite list_lookup_imap in Hz.
    destruct (category_items category !! i) as [item|] eqn:Hi; [|done].
    cbn in Hz. injection Hz as <-.
    rewrite Forall_lookup in Hdom.
    specialize (Hdom i (i, item)).
    rewrite list_lookup_imap, Hi in Hdom. specialize (Hdom eq_refl).
    rewrite getEvaluationScore_raw.
    by apply (scoreFromRaw_in_domain c i item);
      [eapply lookupItem_Some|]. }
  destruct (averageOfScores_spec scores Hnn) as [Hempty Hmean].
  split; [|split; [|split; [|split]]].
  - unfold calculateCategoryAverage. by rewrite Hc.
  - exact Hempty.
  - exact Hmean.
  - intros scores' Hp. by apply averageOfScores_Permutation.
  - intros evals' Hsame. unfold calculateCategoryAverage. rewrite Hc. cbn.
    do 2 f_equal. apply imap_ext. intros i item Hi.
    rewrite !getEvaluationScore_raw, Hsame; [done|].
    by eapply lookup_lt_Some.
Qed.

Lemma calculateCategoryAverage_spec_witness :
  ∃ avg : Q,
    calculateCategoryAverage sampleResponses 0 staff = Some avg
    ∧ roundedTo2 (mean [5%Z; 3%Z]) avg.
Proof.
  destruct (calculateCategoryAverage_spec sampleResponses 0 staff _ eq_refl
              ltac:(compute_done)) as (avg & Havg & _ & Hmean & _).
  exists avg. split; [exact Havg|]. by apply Hmean.
Defined.

(** ** Total score *)

Lemma elem_of_positions c k :
  (c, k) ∈ positions ↔ is_Some (lookupItem c k).
Proof.
  split.
  - revert c k.
    assert (H : Forall (λ p, is_Some (lookupItem p.1 p.2)) positions)
      by compute_done.
    intros c k Hin. by apply (proj1 (Forall_forall _ _) H (c, k)).
  - intros [item Hitem]. unfold lookupItem in Hitem.
    destruct (categories !! c) as [category|] eqn:Hc; [|done]. cbn in Hitem.
    apply lookup_lt_Some in Hitem.
    do 3 (destruct c as [|c];
          [ injection Hc as <-; cbn in Hitem;
            do 15 (destruct k as [|k]; [lia || compute_done|]); lia |]).
    done.
Qed.

Lemma sumZ_fmap_filter {A : Type} (P : A → Prop) `{∀ x, Decision (P x)}
    (f : A → Z) (l : list A) :
  (∀ x, x ∈ l → ¬ P x → f x = 0%Z) →
  sumZ (f <$> filter P l) = sumZ (f <$> l).
Proof.
  induction l as [|x l IH]; intros Hz; [done|].
  rewrite filter_cons.
  assert (IH' : sumZ (f <$> filter P l) = sumZ (f <$> l)).
  { apply IH. intros y Hy. apply Hz. by right. }
  case_decide as HP; unfold sumZ in *; cbn; rewrite IH'; [done|].
  rewrite (Hz x); [lia | by left | done].
Qed.

(** The nested [reduce] of the direct save is the flat sum of the
    normalized scores of all positions. *)
Lemma totalScoreOf_sum evals e :
  totalScoreOf evals e
  = sumZ ((λ p, getEvaluationScore evals e p.1 p.2) <$> positions).
Proof.
  unfold totalScoreOf, reduce, positions, sumZ.
  cbv -[getEvaluationScore Z.add]. lia.
Qed.

(** The total of [finalizeDraft] is the total of the direct save on the
    draft's responses. *)
Lemma finalizeTotalScore_totalScoreOf draft :
  finalizeTotalScore draft
  = totalScoreOf (d_evaluations draft) (d_evaluator draft).
Proof.
  unfold finalizeTotalScore, totalScoreOf.
  apply reduce_ext. intros total c category Hc. f_equal.
  apply reduce_ext. intros catTotal i item Hi.
  rewrite getEvaluationScore_raw. unfold scoreFromRaw, getEvaluation.
  rewrite (lookupItem_Some _ _ _ _ Hc Hi).
  case_decide; [lia|done].
Qed.

(** ** The category sums of [finalizeDraft] *)

Lemma foldl_count_sum {C : Type} (g : C → Z) (l : list C) (t : Z) (n : nat) :
  foldl (λ acc x, if decide (g x ≠ 0%Z)
                  then ((acc.1 + g x)%Z, S acc.2) else acc) (t, n) l
  = ((t + sumZ (filter (λ s, s ≠ 0%Z) (g <$> l)))%Z,
     n + length (filter (λ s, s ≠ 0%Z) (g <$> l))).
Proof.
  revert t n. induction l as [|x l IH]; intros t n.
  - cbn. unfold sumZ; cbn. f_equal; lia.
  - rewrite fmap_cons, filter_cons. cbn [foldl].
    case_decide; rewrite IH; cbn [fst snd length]; unfold sumZ;
      cbn [foldr]; f_equal; lia.
Qed.

(** On responses in domain the inner [forEach] of [finalizeDraft] leaves
    the sum and the number of the non-zero normalized scores. *)
Lemma finalizeCategorySums_spec draft c category :
  categories !! c = Some category →
  categoryInDomain (d_evaluations draft) (d_evaluator draft) c →
  let answered :=
    filter (λ s, s ≠ 0%Z)
      (imap (λ i _, getEvaluationScore (d_evaluations draft)
                      (d_evaluator draft) c i)
            (category_items category)) in
  finalizeCategorySums draft c category = (sumZ answered, length answered).
Proof.
  intros Hc Hdom answered. unfold finalizeCategorySums.
  set (g := λ ix : nat * Item,
         getEvaluationScore (d_evaluations draft) (d_evaluator draft) c ix.1).
  rewrite (foldl_imap_ext _
             (λ acc x, if decide (g x ≠ 0%Z)
                       then ((acc.1 + g x)%Z, S acc.2) else acc)).
  - rewrite foldl_count_sum, fmap_imap. cbn. by rewrite Z.add_0_l.
  - intros [catTotal catCount] i item Hi. cbn.
    unfold categoryInDomain, itemsOf in Hdom. rewrite Hc in Hdom. cbn in Hdom.
    rewrite Forall_lookup in Hdom. specialize (Hdom i (i, item)).
    rewrite list_lookup_imap, Hi in Hdom. specialize (Hdom eq_refl).
    cbn in Hdom.
    pose proof (lookupItem_Some _ _ _ _ Hc Hi) as Hitem.
    destruct (scoreFromRaw_in_domain c i item _ Hitem Hdom) as [Hnn Hz].
    unfold g. cbn. rewrite getEvaluationScore_raw in *.
    unfold getEvaluation in *.
    set (raw := default 0%Z
                  (d_evaluations draft !! responseKey (d_evaluator draft) c i))
      in *.
    unfold scoreFromRaw in *. rewrite Hitem in *.
    destruct Hdom as [Hlo Hhi].
    repeat case_decide; try done; try lia; f_equal; lia.
Qed.

(** Rounding a number to two decimals the way [calculateCategoryAverage]
    does. *)
Definition round2 (q : Q) : Q := (inject_Z (Js.Math_round (q * 100)) / 100)%Q.

(** On responses in domain the category average of the direct save is the
    category score of [finalizeDraft] rounded to two decimals. *)
Lemma calculateCategoryAverage_round2_finalize draft c category :
  categories !! c = Some category →
  categoryInDomain (d_evaluations draft) (d_evaluator draft) c →
  ∃ avg : Q,
    calculateCategoryAverage (d_evaluations draft) c (d_evaluator draft)
    = Some avg
    ∧ (avg == round2 (finalizeCategoryScore draft c category))%Q.
Proof.
  intros Hc Hdom.
  unfold calculateCategoryAverage, finalizeCategoryScore. rewrite Hc. cbn.
  rewrite (finalizeCategorySums_spec _ _ _ Hc Hdom).
  eexists; split; [reflexivity|].
  set (scores := imap _ _).
  assert (Hnn : Forall (λ z, (0 ≤ z)%Z) scores).
  { apply Forall_lookup. intros i z Hz.
    unfold scores in Hz. rewrite list_lookup_imap in Hz.
    destruct (category_items category !! i) as [item|] eqn:Hi; [|done].
    cbn in Hz. injection Hz as <-.
    unfold categoryInDomain, itemsOf in Hdom. rewrite Hc in Hdom. cbn in Hdom.
    rewrite Forall_lookup in Hdom. specialize (Hdom i (i, item)).
    rewrite list_lookup_imap, Hi in Hdom. specialize (Hdom eq_refl).
    rewrite getEvaluationScore_raw.
    by apply (scoreFromRaw_in_domain c i item);
      [eapply lookupItem_Some|]. }
  unfold averageOfScores. rewrite (filter_positive_nonzero _ Hnn).
  set (answered := filter _ scores).
  destruct answered as [|a answered']; cbn -[Js.Math_round Js.div sumZ].
  - reflexivity.
  - rewrite (foldl_add_sumZ id), list_fmap_id.
    unfold round2. reflexivity.
Qed.

(** ** The two-answer scenario *)

(** The responses of the scenario as a table: raw 1 at item [i] and raw 3
    at item [j] of the first category, nothing else. *)
Definition scenarioRaw (i j : nat) (c k : nat) : Z :=
  if decide ((c, k) = (0, i)) then 1%Z
  else if decide ((c, k) = (0, j)) then 3%Z else 0%Z.

Definition scenarioScores (i j : nat) : list Z :=
  imap (λ k _, scoreFromRaw 0 k (scenarioRaw i j 0 k)) (itemsOf 0).

Lemma scenario_facts i j :
  i < 10 → j < 10 → i ≠ j →
  averageOfScores (scenarioScores i j) = (400 # 100)%Q
  ∧ sumZ ((λ p, scoreFromRaw p.1 p.2 (scenarioRaw i j p.1 p.2)) <$> positions)
    = 8%Z
  ∧ sumZ (filter (λ s, s ≠ 0%Z) (scenarioScores i j)) = 8%Z
  ∧ length (filter (λ s, s ≠ 0%Z) (scenarioScores i j)) = 2
  ∧ Forall (λ ix : nat * Item, rawInDomain ix.2 (scenarioRaw i j 0 ix.1))
           (imap pair (itemsOf 0)).
Proof.
  intros Hi Hj Hne.
  do 10 (destruct i as [|i];
         [ do 10 (destruct j as [|j];
                  [ first [ lia
                          | repeat split;
                            first [ vm_compute; reflexivity | compute_done ] ]
                  | ]); lia
         | ]); lia.
Qed.

(** C4.  The total score of both save paths is the plain sum of the
    normalized scores of all items of the three categories, and the
    unanswered items add nothing to it.  When exactly two 5-level items
    [i] and [j] of the 11-item first category are answered, with raw 1 and
    raw 3, the average of that category is 4 and the total is 8, on the
    direct path and on the finalize path. *)
Theorem totalScore_spec
    (evals : gmap string Z) (e : Evaluator) (draft : EvaluationDraft)
    (i j : nat) :
  d_evaluations draft = evals → d_evaluator draft = e →
  let score := λ p : nat * nat, getEvaluationScore evals e p.1 p.2 in
  let answered p := getEvaluation evals e p.1 p.2 ≠ 0%Z in
  totalScoreOf evals e = sumZ (score <$> positions)
  ∧ finalizeTotalScore draft = sumZ (score <$> positions)
  ∧ sumZ (score <$> positions) = sumZ (score <$> filter answered positions)
  ∧ length (itemsOf 0) = 11
  ∧ (i < 10 → j < 10 → i ≠ j →
     getEvaluation evals e 0 i = 1%Z →
     getEvaluation evals e 0 j = 3%Z →
     (∀ c k, (c, k) ∈ positions → (c, k) ≠ (0, i) → (c, k) ≠ (0, j) →
             getEvaluation evals e c k = 0%Z) →
     (∃ avg : Q, calculateCategoryAverage evals 0 e = Some avg
                 ∧ (avg == 4)%Q)
     ∧ totalScoreOf evals e = 8%Z
     ∧ (∀ category, categories !! 0 = Some category →
                    (finalizeCategoryScore draft 0 category == 4)%Q)
     ∧ finalizeTotalScore draft = 8%Z).
Proof.
  intros Hev He score answered.
  assert (Htot : totalScoreOf evals e = sumZ (score <$> positions))
    by apply totalScoreOf_sum.
  assert (Hfin : finalizeTotalScore draft = sumZ (score <$> positions)).
  { rewrite finalizeTotalScore_totalScoreOf, Hev, He. exact Htot. }
  split; [exact Htot|]. split; [exact Hfin|].
  split.
  { symmetry. apply sumZ_fmap_filter. intros p _ Hp. unfold score.
    apply getEvaluationScore_unanswered.
    unfold answered in Hp. by destruct (decide (getEvaluation evals e p.1 p.2 = 0%Z)). }
  split; [reflexivity|].
  intros Hi Hj Hne H1 H3 H0.
  destruct (scenario_facts i j Hi Hj Hne) as (Favg & Fsum & Fans & Flen & Fdom).
  assert (Hraw : ∀ c k, (c, k) ∈ positions →
                        getEvaluation evals e c k = scenarioRaw i j c k).
  { intros c k Hin. unfold scenarioRaw.
    destruct (decide ((c, k) = (0, i))) as [[= -> ->]|Hn1]; [done|].
    destruct (decide ((c, k) = (0, j))) as [[= -> ->]|Hn3]; [done|].
    by apply H0. }
  assert (Hscores :
            imap (λ k _, getEvaluationScore evals e 0 k) (itemsOf 0)
            = scenarioScores i j).
  { apply imap_ext. intros k item Hk. cbn.
    rewrite getEvaluationScore_raw, Hraw; [done|].
    apply elem_of_positions. exists item.
    by apply (lookupItem_Some 0 k _ item eq_refl). }
  assert (Hsum : sumZ (score <$> positions) = 8%Z).
  { rewrite <- Fsum. f_equal. apply list_fmap_ext.
    intros n [c k] Hin. unfold score. cbn.
    rewrite getEvaluationScore_raw, Hraw; [done|].
    by eapply list_elem_of_lookup_2. }
  split; [|split; [|split]].
  - exists (400 # 100)%Q. split; [|reflexivity].
    unfold calculateCategoryAverage. cbn [lookup list_lookup categories mbind
      option_bind].
    change (category_items _) with (itemsOf 0).
    by rewrite Hscores, Favg.
  - by rewrite Htot.
  - intros category [= <-].
    assert (Hdom : categoryInDomain (d_evaluations draft) (d_evaluator draft) 0).
    { rewrite Hev, He. unfold categoryInDomain.
      apply Forall_forall. intros [k item] Hin.
      pose proof (proj1 (Forall_forall _ _) Fdom _ Hin) as Hd. cbn in Hd |- *.
      rewrite Hraw; [done|].
      apply elem_of_lookup_imap in Hin as (k' & item' & [= -> ->] & Hk).
      apply elem_of_positions. exists item'.
      by apply (lookupItem_Some 0 k' _ item' eq_refl). }
    unfold finalizeCategoryScore.
    rewrite (finalizeCategorySums_spec draft 0 _ eq_refl Hdom).
    rewrite Hev, He.
    change (category_items _) with (itemsOf 0).
    rewrite Hscores, Fans, Flen. reflexivity.
  - by rewrite Hfin.
Qed.

Definition scenarioDraft : EvaluationDraft :=
  {| d_id := "draft_1"; d_targetId := "T1"; d_targetName := "Tanaka";
     d_evaluationDate := "2025-07-21"; d_evaluator := staff;
     d_evaluations := sampleResponses; d_subChecks := ∅; d_comments := ∅;
     d_completionRate := 6%Z; d_lastSaved := "2025-07-21T09:00:00.000Z";
     d_createdAt := "2025-07-21T09:00:00.000Z";
     d_updatedAt := "2025-07-21T09:00:00.000Z" |}.

Lemma totalScore_spec_witness :
  totalScoreOf sampleResponses staff = 8%Z
  ∧ finalizeTotalScore scenarioDraft = 8%Z.
Proof.
  assert (HF : Forall (λ p : nat * nat,
                         p ≠ (0, 0) → p ≠ (0, 1) →
                         getEvaluation sampleResponses staff p.1 p.2 = 0%Z)
                      positions) by compute_done.
  assert (H1 : getEvaluation sampleResponses staff 0 0 = 1%Z)
    by (vm_compute; reflexivity).
  assert (H3 : getEvaluation sampleResponses staff 0 1 = 3%Z)
    by (vm_compute; reflexivity).
  destruct (totalScore_spec sampleResponses staff scenarioDraft 0 1
              eq_refl eq_refl) as (_ & _ & _ & _ & H).
  destruct (H ltac:(lia) ltac:(lia) ltac:(lia) H1 H3
              (λ c k Hin, proj1 (Forall_forall _ _) HF (c, k) Hin))
    as (_ & Htot & _ & Hfin).
  split; [exact Htot | exact Hfin].
Defined.

(** ** Finalize against the direct save *)

Definition unevenResponses : gmap string Z :=
  <["staff-0-0" := 1%Z]> (<["staff-0-1" := 1%Z]> (<["staff-0-2" := 2%Z]> ∅)).

Definition unevenDraft : EvaluationDraft :=
  {| d_id := "draft_1"; d_targetId := "T1"; d_targetName := "Tanaka";
     d_evaluationDate := "2025-07-21"; d_evaluator := staff;
     d_evaluations := unevenResponses; d_subChecks := ∅; d_comments := ∅;
     d_completionRate := 9%Z; d_lastSaved := "2025-07-21T09:00:00.000Z";
     d_createdAt := "2025-07-21T09:00:00.000Z";
     d_updatedAt := "2025-07-21T09:00:00.000Z" |}.

Definition tanaka : SupportTarget :=
  {| t_id := "T1"; t_userId := "U-001"; t_name := "Tanaka";
     t_birthdate := "1990-04-01"; t_email := "tanaka@example.org";
     t_gender := male; t_disability := ""; t_supportStartDate := "2025-04-01";
     t_notes := ""; t_createdAt := "2025-04-01T00:00:00.000Z";
     t_updatedAt := "2025-04-01T00:00:00.000Z" |}.

Definition unevenSession : Session :=
  {| ss_supportTargets := [tanaka]; selectedTargetId := "T1";
     currentDate := "2025-07-21"; activeEvaluator := staff;
     evaluations := unevenResponses; detailChecks := ∅; comments := ∅ |}.

Definition unevenStorage : Storage :=
  {| supportTargets := [tanaka]; evaluationRecords := [];
     evaluationDrafts := [unevenDraft]; supportGoals := [] |}.

Definition sampleEnv : Env :=
  {| env_iso := "2025-07-21T10:00:00.000Z"; env_millis := 1753092000000%N;
     env_random := "k3x9q2m1z" |}.

(** The first-category score each save path stores for a record. *)
Definition firstCategoryScore (saved : option EvaluationRecord) : option Q :=
  r ← saved; r_categoryScores r !! "I 日常生活".

(** C2.  On a draft whose first category has the answers raw 1, 1 and 2
    (normalized 5, 5 and 4), [finalizeDraft] stores the unrounded quotient
    14/3 as the category score, where the direct save stores 4.67 for the
    same responses; the two totals agree. *)
Theorem finalizeDraft_skips_rounding :
  firstCategoryScore (finalizeDraft sampleEnv "draft_1" unevenStorage).1
  = Some (14 # 3)%Q
  ∧ firstCategoryScore
      (saveEvaluationRecord sampleEnv unevenSession staff unevenStorage).1
    = Some (467 # 100)%Q
  ∧ ¬ (14 # 3 == 467 # 100)%Q
  ∧ r_totalScore <$> (finalizeDraft sampleEnv "draft_1" unevenStorage).1
    = Some 14%Z
  ∧ r_totalScore
      <$> (saveEvaluationRecord sampleEnv unevenSession staff unevenStorage).1
    = Some 14%Z.
Proof.
  split; [vm_compute; reflexivity|].
  split; [vm_compute; reflexivity|].
  split; [intros H; vm_compute in H; discriminate|].
  split; vm_compute; reflexivity.
Qed.

(** ** Draft upsert *)

Lemma draftMatches_key t dt e d :
  DataService.draftMatches t dt e d ↔ draftKey d = (t, dt, e).
Proof.
  unfold DataService.draftMatches, draftKey. split.
  - by intros (-> & -> & ->).
  - by intros [= -> -> ->].
Qed.

Lemma NoDup_fmap_lookup_inj {A B : Type} (f : A → B) (l : list A) i j x y :
  NoDup (f <$> l) → l !! i = Some x → l !! j = Some y → f x = f y → i = j.
Proof.
  intros Hnd Hi Hj Hf.
  apply (NoDup_lookup (f <$> l) i j (f x) Hnd).
  - by rewrite list_lookup_fmap, Hi.
  - by rewrite list_lookup_fmap, Hj, Hf.
Qed.

(** With pairwise distinct keys, the elements that share the key of a
    member are that member alone. *)
Lemma filter_key_singleton {A B : Type} `{EqDecision B} (f : A → B)
    (l : list A) (x : A) :
  NoDup (f <$> l) → x ∈ l → filter (λ y, f y = f x) l = [x].
Proof.
  induction l as [|a l IH]; intros Hnd Hin; [by apply elem_of_nil in Hin|].
  rewrite fmap_cons in Hnd. apply NoDup_cons in Hnd as [Ha Hnd].
  rewrite filter_cons.
  apply elem_of_cons in Hin as [->|Hin].
  - rewrite decide_True by done. f_equal.
    apply elem_of_nil_inv. intros y [Hfy Hy]%list_elem_of_filter.
    apply Ha. rewrite <- Hfy. by apply list_elem_of_fmap_2.
  - rewrite decide_False; [by apply IH|].
    intros Hfa. apply Ha. rewrite Hfa. by apply list_elem_of_fmap_2.
Qed.

(** One save of a draft, on a collection with pairwise distinct keys. *)
Lemma saveEvaluationDraft_step env draft s :
  NoDup (draftKey <$> evaluationDrafts s) →
  let key := (di_targetId draft, di_evaluationDate draft, di_evaluator draft) in
  let drafts := evaluationDrafts s in
  let saved := (DataService.saveEvaluationDraft env draft s).1 in
  let s' := (DataService.saveEvaluationDraft env draft s).2 in
  NoDup (draftKey <$> evaluationDrafts s')
  ∧ saved ∈ evaluationDrafts s'
  ∧ draftKey saved = key
  ∧ (∀ i old, drafts !! i = Some old → draftKey old = key →
       d_id saved = d_id old ∧ d_createdAt saved = d_createdAt old
       ∧ evaluationDrafts s' = <[i := saved]> drafts)
  ∧ (key ∉ draftKey <$> drafts →
       d_id saved = generateId "draft" env
       ∧ d_createdAt saved = env_iso env
       ∧ evaluationDrafts s' = (drafts ++ [saved])%list).
Proof.
  intros Hnd key drafts saved s'.
  unfold saved, s', DataService.saveEvaluationDraft. fold drafts.
  destruct (list_find _ drafts) as [[i old]|] eqn:Hfind; cbn.
  - apply list_find_Some in Hfind as (Hi & Hm & _).
    apply draftMatches_key in Hm.
    assert (Hkeys : draftKey <$> <[i := DataService.mergeDraft old draft
                                           (env_iso env)]> drafts
                    = draftKey <$> drafts).
    { rewrite list_fmap_insert. apply list_insert_id.
      rewrite list_lookup_fmap, Hi. unfold draftKey in *. cbn.
      by rewrite Hm. }
    split; [by rewrite Hkeys|].
    split.
    { apply list_elem_of_lookup. exists i.
      apply list_lookup_insert_eq. by eapply lookup_lt_Some. }
    split; [done|]. split.
    + intros i' old' Hi' Hk'.
      assert (i' = i) as ->.
      { eapply (NoDup_fmap_lookup_inj draftKey drafts); [done..|].
        by rewrite Hk', Hm. }
      rewrite Hi in Hi'. by injection Hi' as <-.
    + intros Hnot. exfalso. apply Hnot. fold key in Hm. rewrite <- Hm.
      apply list_elem_of_fmap_2. by eapply list_elem_of_lookup_2.
  - apply list_find_None in Hfind.
    assert (Hnot : key ∉ draftKey <$> drafts).
    { intros (d & Hd & Hin)%list_elem_of_fmap.
      apply (proj1 (Forall_forall _ _) Hfind d Hin).
      by apply draftMatches_key. }
    split.
    { rewrite fmap_app. apply NoDup_app. split; [done|]. split.
      - intros k Hk [->|[]%elem_of_nil]%elem_of_cons. by apply Hnot.
      - apply NoDup_singleton. }
    split; [apply elem_of_app; right; by left|].
    split; [done|]. split; [|done].
    intros i old Hi Hk. exfalso. apply Hnot. rewrite <- Hk.
    apply list_elem_of_fmap_2. by eapply list_elem_of_lookup_2.
Qed.

Definition draftInputKey (draft : DraftInput) : string * string * Evaluator :=
  (di_targetId draft, di_evaluationDate draft, di_evaluator draft).

(** The payload of a stored draft and of a save request. *)
Definition draftData (d : EvaluationDraft) :=
  (d_targetName d, d_evaluations d, d_subChecks d, d_comments d,
   d_completionRate d).

Definition draftInputData (draft : DraftInput) :=
  (di_targetName draft, di_evaluations draft, di_subChecks draft,
   di_comments draft, di_completionRate draft).

Lemma saveEvaluationDraft_data env draft s :
  let saved := (DataService.saveEvaluationDraft env draft s).1 in
  let s' := (DataService.saveEvaluationDraft env draft s).2 in
  draftData saved = draftInputData draft
  ∧ d_lastSaved saved = env_iso env
  ∧ d_updatedAt saved = env_iso env
  ∧ supportTargets s' = supportTargets s
  ∧ evaluationRecords s' = evaluationRecords s
  ∧ supportGoals s' = supportGoals s.
Proof.
  unfold DataService.saveEvaluationDraft.
  by destruct (list_find _ (evaluationDrafts s)) as [[i old]|].
Qed.

(** C5.  On a draft collection with at most one draft per
    (targetId, evaluationDate, evaluator) triple, a save keeps that
    property and leaves exactly one draft for its triple, holding the
    saved data and the time of the save in [lastSaved] and [updatedAt].
    If the triple had a draft, that draft is replaced in place and keeps
    its id and [createdAt]; otherwise a draft with the generated id is
    appended.  A second save for the same triple again leaves exactly one
    draft for it, with the first save's id and [createdAt], the second
    save's data and time, and the same number of drafts. *)
Theorem saveEvaluationDraft_upsert
    (env1 env2 : Env) (draft1 draft2 : DraftInput) (s : Storage) :
  NoDup (draftKey <$> evaluationDrafts s) →
  draftInputKey draft2 = draftInputKey draft1 →
  let key := draftInputKey draft1 in
  let drafts := evaluationDrafts s in
  let saved1 := (DataService.saveEvaluationDraft env1 draft1 s).1 in
  let s1 := (DataService.saveEvaluationDraft env1 draft1 s).2 in
  let saved2 := (DataService.saveEvaluationDraft env2 draft2 s1).1 in
  let s2 := (DataService.saveEvaluationDraft env2 draft2 s1).2 in
  (NoDup (draftKey <$> evaluationDrafts s1)
   ∧ filter (λ d, draftKey d = key) (evaluationDrafts s1) = [saved1]
   ∧ draftData saved1 = draftInputData draft1
   ∧ d_lastSaved saved1 = env_iso env1
   ∧ d_updatedAt saved1 = env_iso env1)
  ∧ (∀ i old, drafts !! i = Some old → draftKey old = key →
       d_id saved1 = d_id old ∧ d_createdAt saved1 = d_createdAt old
       ∧ evaluationDrafts s1 = <[i := saved1]> drafts
       ∧ length (evaluationDrafts s1) = length drafts)
  ∧ (key ∉ draftKey <$> drafts →
       d_id saved1 = generateId "draft" env1
       ∧ d_createdAt saved1 = env_iso env1
       ∧ evaluationDrafts s1 = (drafts ++ [saved1])%list)
  ∧ (NoDup (draftKey <$> evaluationDrafts s2)
     ∧ filter (λ d, draftKey d = key) (evaluationDrafts s2) = [saved2]
     ∧ d_id saved2 = d_id saved1
     ∧ d_createdAt saved2 = d_createdAt saved1
     ∧ draftData saved2 = draftInputData draft2
     ∧ d_lastSaved saved2 = env_iso env2
     ∧ d_updatedAt saved2 = env_iso env2
     ∧ length (evaluationDrafts s2) = length (evaluationDrafts s1))
  ∧ (supportTargets s2 = supportTargets s
     ∧ evaluationRecords s2 = evaluationRecords s
     ∧ supportGoals s2 = supportGoals s).
Proof.
  intros Hnd Hkey key drafts saved1 s1 saved2 s2.
  destruct (saveEvaluationDraft_step env1 draft1 s Hnd)
    as (Hnd1 & Hin1 & Hk1 & Hover1 & Hfresh1).
  destruct (saveEvaluationDraft_data env1 draft1 s)
    as (Hd1 & Hl1 & Hu1 & Ht1 & Hr1 & Hg1).
  fold saved1 s1 in Hnd1, Hin1, Hk1, Hover1, Hfresh1, Hd1, Hl1, Hu1, Ht1,
    Hr1, Hg1.
  fold drafts in Hover1, Hfresh1. change (draftKey saved1 = key) in Hk1.
  destruct (saveEvaluationDraft_step env2 draft2 s1 Hnd1)
    as (Hnd2 & Hin2 & Hk2 & Hover2 & _).
  destruct (saveEvaluationDraft_data env2 draft2 s1)
    as (Hd2 & Hl2 & Hu2 & Ht2 & Hr2 & Hg2).
  fold saved2 s2 in Hnd2, Hin2, Hk2, Hover2, Hd2, Hl2, Hu2, Ht2, Hr2, Hg2.
  change (draftKey saved2 = draftInputKey draft2) in Hk2.
  rewrite Hkey in Hk2. fold key in Hk2.
  split; [|split; [|split; [|split]]].
  - split; [done|]. split; [|done].
    rewrite <- Hk1. by apply filter_key_singleton.
  - intros i old Hi Hk. destruct (Hover1 i old Hi Hk) as (? & ? & Heq).
    repeat split; try done. by rewrite Heq, length_insert.
  - exact Hfresh1.
  - apply list_elem_of_lookup in Hin1 as [i Hi].
    destruct (Hover2 i saved1 Hi) as (Hid & Hcr & Heq).
    { change (draftKey saved1 = draftInputKey draft2). by rewrite Hkey. }
    split; [done|]. split.
    { rewrite <- Hk2. by apply filter_key_singleton. }
    repeat split; try done. by rewrite Heq, length_insert.
  - by rewrite Ht2, Hr2, Hg2.
Qed.

Definition sampleDraftInput (completionRate : Z) : DraftInput :=
  {| di_targetId := "T1"; di_targetName := "Tanaka";
     di_evaluationDate := "2025-07-21"; di_evaluator := staff;
     di_evaluations := sampleResponses; di_subChecks := ∅; di_comments := ∅;
     di_completionRate := completionRate |}.

Definition laterEnv : Env :=
  {| env_iso := "2025-07-21T10:05:00.000Z"; env_millis := 1753092300000%N;
     env_random := "p0o9i8u7y" |}.

Lemma saveEvaluationDraft_upsert_witness :
  length
    (evaluationDrafts
       (DataService.saveEvaluationDraft laterEnv (sampleDraftInput 9)
          (DataService.saveEvaluationDraft sampleEnv (sampleDraftInput 6)
             unevenStorage).2).2)
  = 1.
Proof.
  assert (Hnd : NoDup (draftKey <$> evaluationDrafts unevenStorage))
    by compute_done.
  destruct (saveEvaluationDraft_upsert sampleEnv laterEnv
              (sampleDraftInput 6) (sampleDraftInput 9) unevenStorage
              Hnd eq_refl)
    as (_ & Hover & _ & (_ & _ & _ & _ & _ & _ & _ & Hlen) & _).
  rewrite Hlen.
  destruct (Hover 0 unevenDraft eq_refl eq_refl) as (_ & _ & _ & Hlen1).
  by rewrite Hlen1.
Defined.

(** ** Finalizing a draft *)

Lemma filter_length_eq {A : Type} (P : A → Prop) `{∀ x, Decision (P x)}
    (l : list A) :
  length (filter P l) = length l → filter P l = l.
Proof.
  induction l as [|x l IH]; [done|].
  rewrite filter_cons. case_decide as HP; cbn; intros Hlen.
  - f_equal. apply IH. lia.
  - pose proof (length_filter P l). lia.
Qed.

Lemma deleteEvaluationDraft_spec draftId s :
  let s' := (DataService.deleteEvaluationDraft draftId s).2 in
  evaluationDrafts s' = filter (λ d, d_id d ≠ draftId) (evaluationDrafts s)
  ∧ supportTargets s' = supportTargets s
  ∧ evaluationRecords s' = evaluationRecords s
  ∧ supportGoals s' = supportGoals s.
Proof.
  unfold DataService.deleteEvaluationDraft.
  case_decide as Hlen; cbn; [|done].
  by rewrite (filter_length_eq _ _ Hlen).
Qed.

(** Deleting a draft keeps the keys of the drafts pairwise distinct. *)
Lemma deleteEvaluationDraft_keeps_unique draftId s :
  NoDup (draftKey <$> evaluationDrafts s) →
  NoDup (draftKey <$> evaluationDrafts
                        (DataService.deleteEvaluationDraft draftId s).2).
Proof.
  intros Hnd. destruct (deleteEvaluationDraft_spec draftId s) as [-> _].
  apply (sublist_NoDup _ (draftKey <$> evaluationDrafts s)); [done|].
  apply fmap_sublist, sublist_filter.
Qed.

Lemma loadEvaluationDraft_Some draftId s draft :
  DataService.loadEvaluationDraft draftId s = Some draft →
  draft ∈ evaluationDrafts s ∧ d_id draft = draftId.
Proof.
  unfold DataService.loadEvaluationDraft.
  destruct (list_find _ _) as [[i d]|] eqn:Hfind; [|done].
  intros [= <-]. apply list_find_Some in Hfind as (Hi & Hid & _).
  split; [by eapply list_elem_of_lookup_2|done].
Qed.

Lemma loadEvaluationDraft_None draftId s :
  DataService.loadEvaluationDraft draftId s = None ↔
  ∀ d, d ∈ evaluationDrafts s → d_id d ≠ draftId.
Proof.
  unfold DataService.loadEvaluationDraft.
  destruct (list_find _ _) as [[i d]|] eqn:Hfind; cbn.
  - apply list_find_Some in Hfind as (Hi & Hid & _).
    split; [done|]. intros Hall. exfalso.
    apply (Hall d); [by eapply list_elem_of_lookup_2|done].
  - apply list_find_None in Hfind. split; [|done].
    intros _. by apply Forall_forall.
Qed.

Lemma finalizeCategoryScores_lookup draft c category :
  categories !! c = Some category →
  finalizeCategoryScores draft !! category_name category
  = Some (finalizeCategoryScore draft c category).
Proof.
  intros Hc. unfold finalizeCategoryScores.
  do 3 (destruct c as [|c];
        [ injection Hc as <-; cbn [categories imap foldl fst snd category_name];
          by simplify_map_eq | ]).
  done.
Qed.

(** On responses in domain the category score of [finalizeDraft] is 0 for
    a category without answers and the exact mean of the non-zero
    normalized scores otherwise. *)
Lemma finalizeCategoryScore_mean draft c category :
  categories !! c = Some category →
  categoryInDomain (d_evaluations draft) (d_evaluator draft) c →
  finalizeCategoryScore draft c category
  = match filter (λ s, s ≠ 0%Z)
            (imap (λ i _, getEvaluationScore (d_evaluations draft)
                            (d_evaluator draft) c i)
                  (category_items category)) with
    | [] => 0%Q
    | answered => mean answered
    end.
Proof.
  intros Hc Hdom. unfold finalizeCategoryScore.
  rewrite (finalizeCategorySums_spec _ _ _ Hc Hdom).
  by destruct (filter _ _).
Qed.

(** The record [finalizeDraft] builds from a draft. *)
Definition finalizedRecord (env : Env) (draft : EvaluationDraft)
    : EvaluationRecord :=
  {| r_id := generateId "eval" env;
     r_targetId := d_targetId draft;
     r_targetName := d_targetName draft;
     r_evaluationDate := d_evaluationDate draft;
     r_evaluator := d_evaluator draft;
     r_evaluations := d_evaluations draft;
     r_subChecks := d_subChecks draft;
     r_comments := d_comments draft;
     r_totalScore := finalizeTotalScore draft;
     r_categoryScores := finalizeCategoryScores draft;
     r_createdAt := env_iso env;
     r_updatedAt := env_iso env |}.

Lemma finalizeDraft_found env draftId s draft :
  DataService.loadEvaluationDraft draftId s = Some draft →
  finalizeDraft env draftId s
  = (Some (finalizedRecord env draft),
     (DataService.deleteEvaluationDraft draftId
        (DataService.setEvaluationRecords
           (evaluationRecords s ++ [finalizedRecord env draft]) s)).2).
Proof.
  intros Hload. unfold finalizeDraft. rewrite Hload.
  unfold DataService.saveEvaluationRecord. fold (finalizedRecord env draft).
  by destruct (DataService.deleteEvaluationDraft _ _).
Qed.

(** C6.  When a draft with the given id exists, [finalizeDraft] returns a
    record, no draft with that id is left (the other drafts stay), and the
    records are the old ones followed by exactly that record.  The record
    carries the draft's target, date, evaluator and raw responses; its
    total is the sum of the normalized scores of the draft's responses and
    its category scores are the ones computed from those responses, so any
    draft with the same evaluator and responses gives the same scores.
    When no draft has the id, nothing is returned and the storage is
    unchanged. *)
Theorem finalizeDraft_spec (env : Env) (draftId : string) (s : Storage) :
  let res := (finalizeDraft env draftId s).1 in
  let s' := (finalizeDraft env draftId s).2 in
  (∀ draft, DataService.loadEvaluationDraft draftId s = Some draft →
     ∃ saved : EvaluationRecord,
       res = Some saved
       ∧ (∀ d, d ∈ evaluationDrafts s' → d_id d ≠ draftId)
       ∧ evaluationDrafts s'
         = filter (λ d, d_id d ≠ draftId) (evaluationDrafts s)
       ∧ evaluationRecords s' = (evaluationRecords s ++ [saved])%list
       ∧ recordKey saved = draftKey draft
       ∧ r_targetName saved = d_targetName draft
       ∧ r_evaluations saved = d_evaluations draft
       ∧ r_subChecks saved = d_subChecks draft
       ∧ r_comments saved = d_comments draft
       ∧ r_totalScore saved
         = sumZ ((λ p, getEvaluationScore (d_evaluations draft)
                         (d_evaluator draft) p.1 p.2) <$> positions)
       ∧ (∀ c category, categories !! c = Some category →
            r_categoryScores saved !! category_name category
            = Some (finalizeCategoryScore draft c category))
       ∧ (∀ c category, categories !! c = Some category →
            categoryInDomain (d_evaluations draft) (d_evaluator draft) c →
            r_categoryScores saved !! category_name category
            = Some match filter (λ s, s ≠ 0%Z)
                           (imap (λ i _, getEvaluationScore
                                           (d_evaluations draft)
                                           (d_evaluator draft) c i)
                                 (category_items category)) with
                   | [] => 0%Q
                   | answered => mean answered
                   end)
       ∧ (∀ draft', d_evaluator draft' = d_evaluator draft →
                    d_evaluations draft' = d_evaluations draft →
                    finalizeTotalScore draft' = r_totalScore saved
                    ∧ finalizeCategoryScores draft' = r_categoryScores saved)
       ∧ supportTargets s' = supportTargets s
       ∧ supportGoals s' = supportGoals s)
  ∧ ((∀ d, d ∈ evaluationDrafts s → d_id d ≠ draftId) →
     res = None ∧ s' = s).
Proof.
  intros res s'. split.
  - intros draft Hload. unfold res, s'.
    rewrite (finalizeDraft_found _ _ _ _ Hload). cbn [fst snd].
    set (saved := finalizedRecord env draft).
    set (s1 := DataService.setEvaluationRecords _ s).
    destruct (deleteEvaluationDraft_spec draftId s1) as (Hd & Ht & Hr & Hg).
    exists saved. split; [done|].
    split.
    { intros d Hin. rewrite Hd in Hin.
      by apply list_elem_of_filter in Hin as [? _]. }
    split; [by rewrite Hd|]. split; [by rewrite Hr|].
    do 5 (split; [done|]).
    change (r_totalScore saved) with (finalizeTotalScore draft).
    change (r_categoryScores saved) with (finalizeCategoryScores draft).
    split.
    { by rewrite finalizeTotalScore_totalScoreOf, totalScoreOf_sum. }
    split.
    { intros c category Hc. by apply finalizeCategoryScores_lookup. }
    split.
    { intros c category Hc Hdom.
      rewrite (finalizeCategoryScores_lookup _ _ _ Hc).
      by rewrite (finalizeCategoryScore_mean _ _ _ Hc Hdom). }
    split.
    { intros draft' He Hev. split.
      - by rewrite !finalizeTotalScore_totalScoreOf, He, Hev.
      - unfold finalizeCategoryScores, finalizeCategoryScore,
          finalizeCategorySums. by rewrite He, Hev. }
    by rewrite Ht, Hg.
  - intros Hnone. apply loadEvaluationDraft_None in Hnone.
    unfold res, s', finalizeDraft. by rewrite Hnone.
Qed.

Lemma finalizeDraft_spec_witness :
  ∃ saved : EvaluationRecord,
    (finalizeDraft sampleEnv "draft_1" unevenStorage).1 = Some saved
    ∧ r_totalScore saved = 14%Z
    ∧ evaluationDrafts (finalizeDraft sampleEnv "draft_1" unevenStorage).2
      = [].
Proof.
  destruct (finalizeDraft_spec sampleEnv "draft_1" unevenStorage) as [H _].
  destruct (H unevenDraft eq_refl)
    as (saved & Hres & _ & Hdrafts & _ & _ & _ & _ & _ & _ & Htot & _).
  exists saved. split; [exact Hres|]. split.
  - rewrite Htot. vm_compute. reflexivity.
  - rewrite Hdrafts. vm_compute. reflexivity.
Defined.

(** ** Deleting a support target *)

(** C7.  When some target has the given id, [deleteSupportTarget] returns
    [true], removes the targets with that id and the records whose
    [targetId] is that id, keeps every other target and record, and leaves
    the drafts and the goals as they were, also those of the deleted
    target.  When no target has the id it returns [false] and the storage
    is unchanged. *)
Theorem deleteSupportTarget_cascade (id : string) (s : Storage) :
  let deleted := (DataService.deleteSupportTarget id s).1 in
  let s' := (DataService.deleteSupportTarget id s).2 in
  ((∃ t, t ∈ supportTargets s ∧ t_id t = id) →
     deleted = true
     ∧ supportTargets s' = filter (λ t, t_id t ≠ id) (supportTargets s)
     ∧ evaluationRecords s'
       = filter (λ r, r_targetId r ≠ id) (evaluationRecords s)
     ∧ (∀ t, t ∈ supportTargets s' ↔ t ∈ supportTargets s ∧ t_id t ≠ id)
     ∧ (∀ r, r ∈ evaluationRecords s'
             ↔ r ∈ evaluationRecords s ∧ r_targetId r ≠ id)
     ∧ evaluationDrafts s' = evaluationDrafts s
     ∧ supportGoals s' = supportGoals s)
  ∧ ((∀ t, t ∈ supportTargets s → t_id t ≠ id) →
     deleted = false ∧ s' = s).
Proof.
  intros deleted s'. unfold deleted, s', DataService.deleteSupportTarget.
  split.
  - intros (t & Hin & Hid).
    rewrite decide_False.
    2:{ pose proof (length_filter_lt (λ t, t_id t ≠ id) _ t Hin) as Hlt.
        cbn in Hlt. specialize (Hlt ltac:(by intros H; apply H)). lia. }
    cbn. split; [done|]. split; [done|]. split; [done|].
    split; [|split; [|done]].
    + intros t'. rewrite list_elem_of_filter. tauto.
    + intros r. rewrite list_elem_of_filter. tauto.
  - intros Hnone.
    rewrite decide_True; [done|].
    f_equal. induction (supportTargets s) as [|t l IH]; [done|].
    rewrite filter_cons, decide_True by (apply Hnone; by left).
    f_equal. apply IH. intros t' Hin. apply Hnone. by right.
Qed.

Definition tanakaRecord : EvaluationRecord :=
  {| r_id := "eval_1"; r_targetId := "T1"; r_targetName := "Tanaka";
     r_evaluationDate := "2025-07-01"; r_evaluator := staff;
     r_evaluations := sampleResponses; r_subChecks := ∅; r_comments := ∅;
     r_totalScore := 8%Z; r_categoryScores := ∅;
     r_createdAt := "2025-07-01T09:00:00.000Z";
     r_updatedAt := "2025-07-01T09:00:00.000Z" |}.

Definition tanakaGoal : SupportGoal :=
  {| g_id := "goal_1"; g_targetId := "T1"; g_targetName := "Tanaka";
     g_goalDate := "2025-07-21"; g_selectedGoal := "attendance";
     g_actionPlan := ""; g_successCriteria := ""; g_supportNeeded := "";
     g_aiRecommendations := None;
     g_createdAt := "2025-07-21T09:00:00.000Z";
     g_updatedAt := "2025-07-21T09:00:00.000Z" |}.

Definition fullStorage : Storage :=
  {| supportTargets := [tanaka]; evaluationRecords := [tanakaRecord];
     evaluationDrafts := [unevenDraft]; supportGoals := [tanakaGoal] |}.

Lemma deleteSupportTarget_cascade_witness :
  (DataService.deleteSupportTarget "T1" fullStorage).1 = true
  ∧ evaluationRecords (DataService.deleteSupportTarget "T1" fullStorage).2
    = []
  ∧ evaluationDrafts (DataService.deleteSupportTarget "T1" fullStorage).2
    = [unevenDraft]
  ∧ supportGoals (DataService.deleteSupportTarget "T1" fullStorage).2
    = [tanakaGoal].
Proof.
  destruct (deleteSupportTarget_cascade "T1" fullStorage) as [H _].
  destruct H as (Hb & _ & Hr & _ & _ & Hd & Hg).
  { exists tanaka. split; [by left|reflexivity]. }
  split; [exact Hb|]. split; [|split; [exact Hd|exact Hg]].
  rewrite Hr. vm_compute. reflexivity.
Defined.

(** ** Saving a record *)

Definition recordInputKey (record : RecordInput)
    : string * string * Evaluator :=
  (ri_targetId record, ri_evaluationDate record, ri_evaluator record).

(** How many records the collection holds for a key triple. *)
Definition recordsFor (key : string * string * Evaluator) (s : Storage)
    : nat :=
  length (filter (λ r, recordKey r = key) (evaluationRecords s)).

(** For contrast with records: a goal saved for a (targetId, goalDate)
    pair that already has one replaces it and adds no entry. *)
Lemma saveSupportGoal_existing_length env goal s i old :
  supportGoals s !! i = Some old →
  DataService.goalMatches (gi_targetId goal) (gi_goalDate goal) old →
  length (supportGoals (DataService.saveSupportGoal env goal s).2)
  = length (supportGoals s).
Proof.
  intros Hi Hm. unfold DataService.saveSupportGoal.
  destruct (list_find _ (supportGoals s)) as [[j g]|] eqn:Hfind; cbn.
  - by rewrite length_insert.
  - apply list_find_None in Hfind. exfalso.
    apply (proj1 (Forall_forall _ _) Hfind old); [|done].
    by eapply list_elem_of_lookup_2.
Qed.

(** C10.  [DataService.saveEvaluationRecord] always appends one record,
    with the id generated by the call and the fields of its argument,
    after the existing records, which stay as they are; the other
    collections are untouched.  No key is looked up: the number of records
    of the saved (targetId, evaluationDate, evaluator) triple grows by one
    with every save, so two saves for one triple add two records, and a
    finalized draft adds one record for its triple as well. *)
Theorem saveEvaluationRecord_appends
    (env : Env) (record : RecordInput) (s : Storage) :
  let saved := (DataService.saveEvaluationRecord env record s).1 in
  let s' := (DataService.saveEvaluationRecord env record s).2 in
  let key := recordInputKey record in
  evaluationRecords s' = (evaluationRecords s ++ [saved])%list
  ∧ r_id saved = generateId "eval" env
  ∧ recordKey saved = key
  ∧ (r_targetName saved, r_evaluations saved, r_subChecks saved,
     r_comments saved, r_totalScore saved, r_categoryScores saved)
    = (ri_targetName record, ri_evaluations record, ri_subChecks record,
       ri_comments record, ri_totalScore record, ri_categoryScores record)
  ∧ r_createdAt saved = env_iso env ∧ r_updatedAt saved = env_iso env
  ∧ (supportTargets s' = supportTargets s
     ∧ evaluationDrafts s' = evaluationDrafts s
     ∧ supportGoals s' = supportGoals s)
  ∧ recordsFor key s' = S (recordsFor key s)
  ∧ (∀ (env2 : Env) (record2 : RecordInput),
       recordInputKey record2 = key →
       recordsFor key (DataService.saveEvaluationRecord env2 record2 s').2
       = S (S (recordsFor key s)))
  ∧ (∀ (draftId : string) (draft : EvaluationDraft),
       DataService.loadEvaluationDraft draftId s' = Some draft →
       draftKey draft = key →
       recordsFor key (finalizeDraft env draftId s').2
       = S (S (recordsFor key s))).
Proof.
  intros saved s' key.
  assert (Hcount : ∀ (st : Storage) (r : EvaluationRecord),
            recordKey r = key →
            length (filter (λ r, recordKey r = key)
                      (evaluationRecords st ++ [r]))
            = S (recordsFor key st)).
  { intros st r Hr. unfold recordsFor.
    rewrite filter_app, length_app, filter_cons, decide_True by done.
    cbn. lia. }
  assert (Hone : recordsFor key s' = S (recordsFor key s)).
  { unfold recordsFor at 1. by apply Hcount. }
  do 7 (split; [done|]).
  split; [exact Hone|]. split.
  - intros env2 record2 Hk. unfold recordsFor at 1.
    cbn [DataService.saveEvaluationRecord snd evaluationRecords
         DataService.setEvaluationRecords].
    by rewrite Hcount, Hone.
  - intros draftId draft Hload Hk.
    rewrite (finalizeDraft_found _ _ _ _ Hload). cbn [snd].
    unfold recordsFor at 1.
    destruct (deleteEvaluationDraft_spec draftId
                (DataService.setEvaluationRecords
                   (evaluationRecords s' ++ [finalizedRecord env draft]) s'))
      as (_ & _ & -> & _).
    cbn [evaluationRecords DataService.setEvaluationRecords].
    by rewrite Hcount, Hone.
Qed.

Definition sampleRecordInput : RecordInput :=
  {| ri_targetId := "T1"; ri_targetName := "Tanaka";
     ri_evaluationDate := "2025-07-01"; ri_evaluator := staff;
     ri_evaluations := sampleResponses; ri_subChecks := ∅; ri_comments := ∅;
     ri_totalScore := 8%Z; ri_categoryScores := ∅ |}.

Lemma saveEvaluationRecord_appends_witness :
  recordsFor ("T1", "2025-07-01", staff)
    (DataService.saveEvaluationRecord laterEnv sampleRecordInput
       (DataService.saveEvaluationRecord sampleEnv sampleRecordInput
          fullStorage).2).2
  = 3.
Proof.
  destruct (saveEvaluationRecord_appends sampleEnv sampleRecordInput
              fullStorage) as (_ & _ & _ & _ & _ & _ & _ & _ & Htwo & _).
  refine (eq_trans (Htwo laterEnv sampleRecordInput eq_refl) _).
  vm_compute. reflexivity.
Defined.

(** ** Out-of-domain raw responses *)

(** A call of [getEvaluationScore].  Its body has no [throw], and the
    operations it performs (a property read with [||], an optional chain,
    an index read, [===], a subtraction) do not throw on any value, so
    every call returns. *)
Definition getEvaluationScore_call (evals : gmap string Z) (e : Evaluator)
    (c i : nat) : option Z :=
  Some (getEvaluationScore evals e c i).

(** A stored response of 6 on the first item, which has five options. *)
Definition corruptResponses : gmap string Z := <["staff-0-0" := 6%Z]> ∅.

(** C8, as stated, fails: on the 5-level item at position (0, 0) the raw
    response 6 is outside the domain 0..5, and the call returns the score 0
    instead of throwing. *)
Lemma getEvaluationScore_no_fail_fast :
  lookupItem 0 0 = Some (plain "I-1")
  ∧ ¬ rawInDomain (plain "I-1") (getEvaluation corruptResponses staff 0 0)
  ∧ getEvaluationScore_call corruptResponses staff 0 0 = Some 0%Z
  ∧ getEvaluationScore_call corruptResponses staff 0 0 ≠ None.
Proof.
  split; [reflexivity|]. split; [|split; [vm_compute; reflexivity|done]].
  intros [_ H]. vm_compute in H. by apply H.
Qed.

(** C8, amended.  [getEvaluationScore] never throws, in or out of the
    domain.  For a raw response outside the domain of its item it returns
    a number without any signal: [6 - raw] on a 5-level item, which is 0
    for raw 6, negative above 6 and more than 6 below 0, and 1 on a
    2-level item. *)
Theorem getEvaluationScore_total
    (evals : gmap string Z) (e : Evaluator) (c i : nat) (item : Item) :
  lookupItem c i = Some item →
  let raw := getEvaluation evals e c i in
  getEvaluationScore_call evals e c i = Some (getEvaluationScore evals e c i)
  ∧ (¬ rawInDomain item raw →
     item_type item ≠ radio_2_level_with_sub_check →
     getEvaluationScore evals e c i = (6 - raw)%Z
     ∧ ((raw = 6%Z ∧ getEvaluationScore evals e c i = 0%Z)
        ∨ (6 < raw ∧ getEvaluationScore evals e c i < 0)%Z
        ∨ (raw < 0 ∧ 6 < getEvaluationScore evals e c i)%Z))
  ∧ (¬ rawInDomain item raw →
     item_type item = radio_2_level_with_sub_check →
     getEvaluationScore evals e c i = 1%Z).
Proof.
  intros Hitem raw. split; [reflexivity|].
  pose proof (item_options_by_type _ _ _ Hitem) as Hopt.
  rewrite getEvaluationScore_raw. fold raw.
  unfold scoreFromRaw, rawInDomain. rewrite Hitem.
  split; intros Hout Hty.
  - rewrite decide_False in Hopt by done. rewrite Hopt in Hout.
    rewrite decide_False by lia. rewrite decide_False by done.
    split; [done|]. lia.
  - rewrite decide_True in Hopt by done. rewrite Hopt in Hout.
    rewrite decide_False by lia. rewrite decide_True by done.
    rewrite decide_False by lia. done.
Qed.

Lemma getEvaluationScore_total_witness :
  getEvaluationScore_call corruptResponses staff 0 0 = Some 0%Z.
Proof.
  destruct (getEvaluationScore_total corruptResponses staff 0 0
              (plain "I-1") eq_refl) as (Hcall & H5 & _).
  assert (Hout : ¬ rawInDomain (plain "I-1")
                     (getEvaluation corruptResponses staff 0 0)).
  { intros [_ H]. vm_compute in H. by apply H. }
  assert (Hty : item_type (plain "I-1") ≠ radio_2_level_with_sub_check)
    by done.
  destruct (H5 Hout Hty) as [Hv _].
  rewrite Hcall, Hv. vm_compute. reflexivity.
Defined.

(** ** Completion rate of a draft *)

Lemma evaluatorKey_inj e1 e2 : evaluatorKey e1 = evaluatorKey e2 → e1 = e2.
Proof. by destruct e1, e2. Qed.

(** The evaluator is the part of a composite key before the first
    hyphen. *)
Lemma split_head_responseKey e p :
  p ∈ positions →
  Js.split_head (responseKey e p.1 p.2) = evaluatorKey e.
Proof.
  revert p. apply Forall_forall. destruct e; compute_done.
Qed.

(** Distinct items of one evaluator have distinct composite keys. *)
Lemma responseKey_NoDup e :
  NoDup ((λ p, responseKey e p.1 p.2) <$> positions).
Proof. destruct e; compute_done. Qed.

Lemma elem_of_allKeys key :
  key ∈ allKeys ↔ ∃ e p, p ∈ positions ∧ key = responseKey e p.1 p.2.
Proof.
  unfold allKeys. rewrite list_elem_of_bind. split.
  - intros (e & Hk & _). apply list_elem_of_bind in Hk as (p & Hk & Hp).
    apply list_elem_of_singleton in Hk. by exists e, p.
  - intros (e & p & Hp & ->). exists e. split.
    + apply list_elem_of_bind. exists p. split; [by left|done].
    + destruct e; compute_done.
Qed.

(** The number of checklist items across the three categories. *)
Lemma totalItems_positions :
  foldl (λ total category, total + length (category_items category))
        0 categories
  = length positions.
Proof. reflexivity. Qed.

(** On a well-formed response set, the keys [calculateCompletionRate]
    counts correspond one to one to the items of the active evaluator
    with a non-zero raw response. *)
Lemma completedItems_count evals active :
  wellFormed evals →
  length (filter (λ key, Js.split_head key = evaluatorKey active
                         ∧ (default 0%Z (evals !! key) > 0)%Z)
                 (map fst (map_to_list evals)))
  = length (filter (λ p, getEvaluation evals active p.1 p.2 ≠ 0%Z)
                   positions).
Proof.
  intros Hwf.
  set (keyOf := λ p : nat * nat, responseKey active p.1 p.2).
  rewrite <- (length_fmap keyOf (filter _ positions)).
  apply Permutation_length, NoDup_Permutation.
  - apply NoDup_filter, NoDup_fst_map_to_list.
  - apply (sublist_NoDup _ (keyOf <$> positions));
      [apply responseKey_NoDup|].
    apply fmap_sublist, sublist_filter.
  - intros key. rewrite list_elem_of_filter, list_elem_of_fmap. split.
    + intros [[Hhead Hpos] Hin].
      apply list_elem_of_fmap in Hin as ([k raw] & -> & Hin).
      cbn [fst] in Hhead, Hpos.
      apply elem_of_map_to_list in Hin.
      destruct (Hwf k raw Hin) as [Hnn Hkeys].
      apply elem_of_allKeys in Hkeys as (e & p & Hp & ->).
      rewrite (split_head_responseKey e p Hp) in Hhead.
      apply evaluatorKey_inj in Hhead as ->.
      exists p. split; [done|].
      apply list_elem_of_filter. split; [|done].
      unfold getEvaluation. rewrite Hin in Hpos |- *.
      cbn [default] in Hpos |- *. lia.
    + intros (p & -> & Hp).
      apply list_elem_of_filter in Hp as [Hraw Hp].
      unfold getEvaluation in Hraw. unfold keyOf.
      destruct (evals !! responseKey active p.1 p.2) as [raw|] eqn:Hlook;
        [|done].
      cbn [default] in Hraw. destruct (Hwf _ raw Hlook) as [Hnn _].
      split; [split|].
      * by apply split_head_responseKey.
      * cbn [default]. unfold id in *. lia.
      * apply list_elem_of_fmap. exists (responseKey active p.1 p.2, raw).
        split; [done|]. by apply elem_of_map_to_list.
Qed.

Lemma Qfloor_percentage (q : Q) :
  (0 <= q)%Q → (q <= 1)%Q → (0 ≤ Qfloor (q * 100 + (1 # 2)) ≤ 100)%Z.
Proof.
  intros Hlo Hhi. split.
  - change 0%Z with (Qfloor (0 + (1 # 2))). apply Qfloor_resp_le. lra.
  - change (Qfloor (q * 100 + (1 # 2)) ≤ Qfloor (100 + (1 # 2)))%Z.
    apply Qfloor_resp_le. lra.
Qed.

Lemma Math_round_percentage (n total : nat) :
  (0 < total)%nat → (n ≤ total)%nat →
  (0 ≤ Js.Math_round (Js.div (Z.of_nat n) (Z.of_nat total) * 100)%Q
     ≤ 100)%Z.
Proof.
  intros Hpos Hle. unfold Js.Math_round, Js.div.
  assert (Htot : (0 < inject_Z (Z.of_nat total))%Q).
  { change 0%Q with (inject_Z 0). rewrite <- Zlt_Qlt. lia. }
  apply Qfloor_percentage.
  - apply Qle_shift_div_l; [done|]. rewrite Qmult_0_l.
    change 0%Q with (inject_Z 0). rewrite <- Zle_Qle. lia.
  - apply Qle_shift_div_r; [done|]. rewrite Qmult_1_l, <- Zle_Qle. lia.
Qed.

(** C9.  When a target is selected and the session's responses are well
    formed, [saveDraft] stores a draft for the session's
    (target, date, evaluator) triple whose [completionRate] is
    [round(100 * answered / total)]: [answered] is the number of items with
    a non-zero raw response of the active evaluator, [total] the number of
    items of the three categories (34).  Responses of the other evaluators
    and zero responses are not counted, and the rate is an integer between
    0 and 100. *)
Theorem saveDraft_completionRate
    (env : Env) (ss : Session) (s : Storage) (target : SupportTarget) :
  selectedTargetId ss ≠ "" →
  selectedTarget ss = Some target →
  wellFormed (evaluations ss) →
  let answered :=
    length (filter (λ p, getEvaluation (evaluations ss) (activeEvaluator ss)
                           p.1 p.2 ≠ 0%Z) positions) in
  let total := length positions in
  ∃ saved : EvaluationDraft,
    (saveDraft env ss s).1 = Some saved
    ∧ DataService.findEvaluationDraft (selectedTargetId ss) (currentDate ss)
        (activeEvaluator ss) (saveDraft env ss s).2 = Some saved
    ∧ total = 34
    ∧ d_completionRate saved
      = Js.Math_round (100 * Js.div (Z.of_nat answered) (Z.of_nat total))%Q
    ∧ d_completionRate saved
      = calculateCompletionRate (evaluations ss) (activeEvaluator ss)
    ∧ (0 ≤ d_completionRate saved ≤ 100)%Z.
Proof.
  intros Hsel Htarget Hwf answered total.
  assert (Hrate : calculateCompletionRate (evaluations ss) (activeEvaluator ss)
                  = Js.Math_round
                      (Js.div (Z.of_nat answered) (Z.of_nat total) * 100)%Q).
  { unfold calculateCompletionRate.
    by rewrite (completedItems_count _ _ Hwf), totalItems_positions. }
  assert (Hbound : (0 ≤ calculateCompletionRate (evaluations ss)
                          (activeEvaluator ss) ≤ 100)%Z).
  { rewrite Hrate. apply Math_round_percentage.
    - unfold total. cbn. lia.
    - apply length_filter. }
  unfold saveDraft. rewrite decide_False by done. rewrite Htarget.
  set (draftData := mkDraftInput _ _ _ _ _ _ _ _).
  unfold DataService.saveEvaluationDraft, DataService.findEvaluationDraft.
  destruct (list_find _ (evaluationDrafts s)) as [[i old]|] eqn:Hfind;
    cbn [fst snd evaluationDrafts DataService.setEvaluationDrafts].
  - apply list_find_Some in Hfind as (Hi & Hm & Hfirst).
    exists (DataService.mergeDraft old draftData (env_iso env)).
    split; [done|]. split.
    { erewrite (proj2 (list_find_Some _ _ i _)); [done|].
      split; [|split].
      - apply list_lookup_insert_eq. by eapply lookup_lt_Some.
      - done.
      - intros j y Hj Hlt. rewrite list_lookup_insert_ne in Hj by lia.
        by eapply Hfirst. }
    split; [done|]. split; [|split; [done|exact Hbound]].
    cbn [d_completionRate DataService.mergeDraft draftData di_completionRate].
    rewrite Hrate. unfold Js.Math_round. apply Qfloor_comp.
    ring.
  - apply list_find_None in Hfind.
    exists (DataService.newDraftOf env draftData).
    split; [done|]. split.
    { erewrite (proj2 (list_find_Some _ _ (length (evaluationDrafts s)) _));
        [done|].
      split; [|split].
      - by rewrite lookup_app_r, Nat.sub_diag by lia.
      - done.
      - intros j y Hj Hlt. rewrite lookup_app_l in Hj by lia.
        apply (proj1 (Forall_forall _ _) Hfind y).
        by eapply list_elem_of_lookup_2. }
    split; [done|]. split; [|split; [done|exact Hbound]].
    cbn [d_completionRate DataService.newDraftOf draftData di_completionRate].
    rewrite Hrate. unfold Js.Math_round. apply Qfloor_comp.
    ring.
Qed.

Definition mixedResponses : gmap string Z :=
  <["staff-0-0" := 1%Z]>
    (<["staff-0-1" := 3%Z]>
       (<["staff-1-7" := 0%Z]> (<["self-0-0" := 2%Z]> ∅))).

Definition mixedSession : Session :=
  {| ss_supportTargets := [tanaka]; selectedTargetId := "T1";
     currentDate := "2025-07-21"; activeEvaluator := staff;
     evaluations := mixedResponses; detailChecks := ∅; comments := ∅ |}.

Lemma saveDraft_completionRate_witness :
  ∃ saved : EvaluationDraft,
    (saveDraft sampleEnv mixedSession unevenStorage).1 = Some saved
    ∧ d_completionRate saved = 6%Z.
Proof.
  assert (Hwf : wellFormed (evaluations mixedSession)) by compute_done.
  destruct (saveDraft_completionRate sampleEnv mixedSession unevenStorage
              tanaka ltac:(done) eq_refl Hwf)
    as (saved & Hsaved & _ & _ & _ & Hrate & _).
  exists saved. split; [exact Hsaved|].
  rewrite Hrate. vm_compute. reflexivity.
Defined.


(** * Further properties of the code *)

(** ** The direct save of the component *)

Lemma categoryScoresOf_lookup evals e :
  ∃ scores : gmap string Q,
    categoryScoresOf evals e = Some scores
    ∧ ∀ c category, categories !! c = Some category →
        scores !! category_name category = calculateCategoryAverage evals c e.
Proof.
  unfold categoryScoresOf, calculateCategoryAverage.
  cbn [categories imap foldl fst snd lookup list_lookup mbind option_bind
       category_name category_items compose].
  eexists. split; [reflexivity|].
  intros c category Hc.
  do 3 (destruct c as [|c];
        [ injection Hc as <-; cbn [category_name category_items];
          by simplify_map_eq | ]).
  done.
Qed.

(** X1.  The direct save returns without writing when no target is selected or
    the selected id names no target of the list.  Otherwise it never
    throws: it appends one record for the session's target, date and the
    given evaluator, with the session's raw responses, the flat sum of the
    normalized scores as total and [calculateCategoryAverage] of each
    category under the category's name; drafts, goals and targets stay. *)
Theorem saveEvaluationRecord_direct
    (env : Env) (ss : Session) (e : Evaluator) (s : Storage) :
  (selectedTargetId ss = "" ∨ selectedTarget ss = None →
   saveEvaluationRecord env ss e s = (None, s))
  ∧ (∀ target, selectedTargetId ss ≠ "" → selectedTarget ss = Some target →
       ∃ saved : EvaluationRecord,
         (saveEvaluationRecord env ss e s).1 = Some saved
         ∧ evaluationRecords (saveEvaluationRecord env ss e s).2
           = evaluationRecords s ++ [saved]
         ∧ recordKey saved = (selectedTargetId ss, currentDate ss, e)
         ∧ r_targetName saved = t_name target
         ∧ r_evaluations saved = evaluations ss
         ∧ r_totalScore saved
           = sumZ ((λ p, getEvaluationScore (evaluations ss) e p.1 p.2)
                   <$> positions)
         ∧ (∀ c category, categories !! c = Some category →
              r_categoryScores saved !! category_name category
              = calculateCategoryAverage (evaluations ss) c e)
         ∧ evaluationDrafts (saveEvaluationRecord env ss e s).2
           = evaluationDrafts s
         ∧ supportGoals (saveEvaluationRecord env ss e s).2 = supportGoals s
         ∧ supportTargets (saveEvaluationRecord env ss e s).2
           = supportTargets s).
Proof.
  split.
  - intros [Hsel|Hnone]; unfold saveEvaluationRecord.
    + by rewrite decide_True.
    + case_decide; [done|]. by rewrite Hnone.
  - intros target Hsel Htarget. unfold saveEvaluationRecord.
    rewrite decide_False by done. rewrite Htarget.
    destruct (categoryScoresOf_lookup (evaluations ss) e)
      as (scores & -> & Hlookup).
    eexists. split; [reflexivity|].
    cbn [DataService.saveEvaluationRecord fst snd evaluationRecords
         evaluationDrafts supportGoals supportTargets
         DataService.setEvaluationRecords recordKey r_targetId
         r_evaluationDate r_evaluator r_targetName r_evaluations
         r_totalScore r_categoryScores ri_targetId ri_targetName
         ri_evaluationDate ri_evaluator ri_evaluations ri_totalScore
         ri_categoryScores].
    do 4 (split; [reflexivity|]).
    split; [apply totalScoreOf_sum|].
    split; [exact Hlookup|]. by repeat split.
Qed.

Lemma saveEvaluationRecord_direct_witness :
  ∃ saved : EvaluationRecord,
    (saveEvaluationRecord sampleEnv unevenSession staff unevenStorage).1
    = Some saved
    ∧ r_totalScore saved = 14%Z.
Proof.
  destruct (saveEvaluationRecord_direct sampleEnv unevenSession staff
              unevenStorage) as [_ H].
  destruct (H tanaka ltac:(done) eq_refl)
    as (saved & Hsaved & _ & _ & _ & _ & Htot & _).
  exists saved. split; [exact Hsaved|].
  rewrite Htot. vm_compute. reflexivity.
Defined.

(** ** Bounds of the scores *)

Lemma scoreFromRaw_upper c i item raw :
  lookupItem c i = Some item → rawInDomain item raw →
  (scoreFromRaw c i raw
   ≤ if decide (item_type item = radio_2_level_with_sub_check)
     then 2 else 5)%Z.
Proof.
  intros Hitem [Hlo Hhi]. pose proof (item_options_by_type _ _ _ Hitem) as Hopt.
  unfold scoreFromRaw. rewrite Hitem. repeat case_decide; lia.
Qed.

Lemma sumZ_bounds (l : list Z) (lo hi : Z) :
  Forall (λ z, (lo ≤ z ≤ hi)%Z) l →
  (lo * Z.of_nat (length l) ≤ sumZ l ≤ hi * Z.of_nat (length l))%Z.
Proof.
  unfold sumZ. induction 1 as [|x l Hx Hl IH]; cbn [foldr length]; lia.
Qed.

Lemma round2_between_1_and_5 (q : Q) :
  (1 <= q)%Q → (q <= 5)%Q → (1 <= round2 q)%Q ∧ (round2 q <= 5)%Q.
Proof.
  intros Hlo Hhi. unfold round2, Js.Math_round.
  assert (H1 : (100 ≤ Qfloor (q * 100 + (1 # 2)))%Z).
  { change (Qfloor (100 + (1 # 2)) ≤ Qfloor (q * 100 + (1 # 2)))%Z.
    apply Qfloor_resp_le. lra. }
  assert (H5 : (Qfloor (q * 100 + (1 # 2)) ≤ 500)%Z).
  { change (Qfloor (q * 100 + (1 # 2)) ≤ Qfloor (500 + (1 # 2)))%Z.
    apply Qfloor_resp_le. lra. }
  rewrite Zle_Qle in H1, H5.
  set (k := inject_Z (Qfloor (q * 100 + (1 # 2)))) in *.
  change (inject_Z 100) with 100%Q in H1.
  change (inject_Z 500) with 500%Q in H5.
  clearbody k. unfold Qdiv. change (/ 100)%Q with (1 # 100)%Q.
  split; lra.
Qed.

Lemma scores_in_range evals e c category :
  categories !! c = Some category →
  categoryInDomain evals e c →
  Forall (λ z, (0 ≤ z ≤ 5)%Z)
         (imap (λ i _, getEvaluationScore evals e c i)
               (category_items category)).
Proof.
  intros Hc Hdom. apply Forall_lookup. intros i z Hz.
  rewrite list_lookup_imap in Hz.
  destruct (category_items category !! i) as [item|] eqn:Hi; [|done].
  injection Hz as <-.
  unfold categoryInDomain, itemsOf in Hdom. rewrite Hc in Hdom.
  cbn [fmap option_fmap option_map default from_option id] in Hdom.
  rewrite Forall_lookup in Hdom. specialize (Hdom i (i, item)).
  rewrite list_lookup_imap, Hi in Hdom. specialize (Hdom eq_refl).
  cbn [fst snd] in Hdom.
  pose proof (lookupItem_Some _ _ _ _ Hc Hi) as Hitem.
  rewrite getEvaluationScore_raw.
  pose proof (scoreFromRaw_in_domain c i item _ Hitem Hdom) as [Hnn _].
  pose proof (scoreFromRaw_upper c i item _ Hitem Hdom) as Hup.
  case_decide; lia.
Qed.

(** X2.  For responses in domain, a category average is 0 (nothing answered)
    or lies between 1 and 5, the range the charts are drawn for; and the
    total of an evaluator whose responses are in domain in all three
    categories lies between 0 and 164 (32 five-level items and 2 two-level
    items). *)
Theorem score_bounds (evals : gmap string Z) (e : Evaluator) :
  (∀ c category, categories !! c = Some category →
     categoryInDomain evals e c →
     ∃ avg : Q, calculateCategoryAverage evals c e = Some avg
                ∧ (avg = 0%Q ∨ ((1 <= avg)%Q ∧ (avg <= 5)%Q)))
  ∧ (categoryInDomain evals e 0 → categoryInDomain evals e 1 →
     categoryInDomain evals e 2 →
     (0 ≤ totalScoreOf evals e ≤ 164)%Z).
Proof.
  split.
  - intros c category Hc Hdom.
    unfold calculateCategoryAverage. rewrite Hc.
    cbn [mbind option_bind]. eexists. split; [reflexivity|].
    pose proof (scores_in_range _ _ _ _ Hc Hdom) as Hrange.
    set (scores := imap _ _) in *. unfold averageOfScores.
    set (answered := filter (λ score, (score > 0)%Z) scores).
    assert (Hans : Forall (λ z, (1 ≤ z ≤ 5)%Z) answered).
    { apply Forall_forall. intros z [Hz Hin]%list_elem_of_filter.
      pose proof (proj1 (Forall_forall _ _) Hrange z Hin). cbn in *. lia. }
    case_decide as Hlen; [by left|]. right.
    rewrite (foldl_add_sumZ id), list_fmap_id, Z.add_0_l.
    apply sumZ_bounds in Hans.
    apply (round2_between_1_and_5
             (Js.div (sumZ answered) (Z.of_nat (length answered)))).
    + unfold Js.div. apply Qle_shift_div_l.
      * change 0%Q with (inject_Z 0). rewrite <- Zlt_Qlt. lia.
      * rewrite Qmult_1_l, <- Zle_Qle. lia.
    + unfold Js.div. apply Qle_shift_div_r.
      * change 0%Q with (inject_Z 0). rewrite <- Zlt_Qlt. lia.
      * change 5%Q with (inject_Z 5).
        rewrite <- inject_Z_mult, <- Zle_Qle. lia.
  - intros H0 H1 H2.
    pose proof (scores_in_range evals e 0 _ eq_refl H0) as R0.
    pose proof (scores_in_range evals e 1 _ eq_refl H1) as R1.
    pose proof (scores_in_range evals e 2 _ eq_refl H2) as R2.
    assert (H11 : (0 ≤ getEvaluationScore evals e 0 10 ≤ 2)%Z).
    { rewrite getEvaluationScore_raw.
      unfold categoryInDomain in H0. rewrite Forall_lookup in H0.
      specialize (H0 10 (10, twoLevel "I-11") eq_refl).
      pose proof (scoreFromRaw_in_domain 0 10 _ _ eq_refl H0) as [? _].
      pose proof (scoreFromRaw_upper 0 10 _ _ eq_refl H0) as Hup.
      split; [done|exact Hup]. }
    assert (H28 : (0 ≤ getEvaluationScore evals e 1 7 ≤ 2)%Z).
    { rewrite getEvaluationScore_raw.
      unfold categoryInDomain in H1. rewrite Forall_lookup in H1.
      specialize (H1 7 (7, twoLevel "II-8") eq_refl).
      pose proof (scoreFromRaw_in_domain 1 7 _ _ eq_refl H1) as [? _].
      pose proof (scoreFromRaw_upper 1 7 _ _ eq_refl H1) as Hup.
      split; [done|exact Hup]. }
    rewrite totalScoreOf_sum.
    cbv -[getEvaluationScore Z.add Z.le] in R0, R1, R2 |- *.
    repeat match goal with
           | H : Forall _ (_ :: _) |- _ =>
               apply Forall_cons in H as [? H]
           end.
    lia.
Qed.

Lemma score_bounds_witness :
  (0 ≤ totalScoreOf sampleResponses staff ≤ 164)%Z.
Proof.
  destruct (score_bounds sampleResponses staff) as [_ H].
  apply H; compute_done.
Defined.

(** ** Entering a response *)

(** The composite key determines the evaluator and the item. *)
Lemma responseKey_inj e1 e2 p q :
  p ∈ positions → q ∈ positions →
  responseKey e1 p.1 p.2 = responseKey e2 q.1 q.2 → e1 = e2 ∧ p = q.
Proof.
  intros Hp Hq Hkey.
  assert (e1 = e2) as ->.
  { apply evaluatorKey_inj.
    by rewrite <- (split_head_responseKey e1 p Hp), Hkey,
               (split_head_responseKey e2 q Hq). }
  split; [done|].
  apply list_elem_of_lookup in Hp as [i Hi], Hq as [j Hj].
  assert (i = j) as ->.
  { by apply (NoDup_fmap_lookup_inj (λ p, responseKey e2 p.1 p.2)
                positions i j p q (responseKey_NoDup e2)). }
  congruence.
Qed.

(** X3.  After [handleEvaluation] on an item of the checklist, reading a
    response back gives the entered value at that item for the active
    evaluator and the earlier value at every other item or evaluator; the
    comments, sub-checks, target, date and evaluator of the session are
    untouched. *)
Theorem handleEvaluation_getEvaluation
    (ss : Session) (p q : nat * nat) (score : Z) (e : Evaluator) :
  p ∈ positions → q ∈ positions →
  let ss' := handleEvaluation ss p.1 p.2 score in
  getEvaluation (evaluations ss') e q.1 q.2
  = (if decide (e = activeEvaluator ss ∧ q = p) then score
     else getEvaluation (evaluations ss) e q.1 q.2)
  ∧ (e ≠ activeEvaluator ss ∨ q ≠ p →
     getEvaluationScore (evaluations ss') e q.1 q.2
     = getEvaluationScore (evaluations ss) e q.1 q.2)
  ∧ comments ss' = comments ss ∧ detailChecks ss' = detailChecks ss
  ∧ selectedTargetId ss' = selectedTargetId ss
  ∧ currentDate ss' = currentDate ss
  ∧ activeEvaluator ss' = activeEvaluator ss.
Proof.
  intros Hp Hq ss'.
  assert (Hget : getEvaluation (evaluations ss') e q.1 q.2
                 = if decide (e = activeEvaluator ss ∧ q = p) then score
                   else getEvaluation (evaluations ss) e q.1 q.2).
  { unfold getEvaluation, ss', handleEvaluation.
    cbn [evaluations]. case_decide as Hsame.
    - destruct Hsame as [-> ->]. by rewrite lookup_insert_eq.
    - rewrite lookup_insert_ne; [done|].
      intros Hkey. apply Hsame.
      by destruct (responseKey_inj _ _ _ _ Hp Hq Hkey) as [-> ->]. }
  split; [exact Hget|]. split; [|done].
  intros Hne. rewrite !getEvaluationScore_raw, Hget.
  rewrite decide_False; [done|]. intros [-> ->]. by destruct Hne.
Qed.

Lemma handleEvaluation_getEvaluation_witness :
  getEvaluation (evaluations (handleEvaluation unevenSession 1 7 2%Z))
    staff 1 7 = 2%Z.
Proof.
  destruct (handleEvaluation_getEvaluation unevenSession (1, 7) (1, 7) 2%Z
              staff ltac:(compute_done) ltac:(compute_done)) as [H _].
  exact H.
Defined.

(** ** Progress and completion *)

Lemma split_head_prefix (key : string) :
  String.prefix (Js.split_head key) key = true.
Proof.
  induction key as [|c key IH]; [done|].
  cbn [Js.split_head]. destruct (Ascii.eqb c "-"); [done|].
  cbn [String.prefix]. by destruct (ascii_dec c c).
Qed.

Lemma length_filter_impl {A : Type} (P R : A → Prop)
    `{∀ x, Decision (P x)} `{∀ x, Decision (R x)} (l : list A) :
  (∀ x, P x → R x) → (length (filter P l) ≤ length (filter R l))%nat.
Proof.
  intros Himpl. induction l as [|x l IH]; [done|].
  rewrite !filter_cons.
  destruct (decide (P x)) as [HP|HP].
  - rewrite decide_True by by apply Himpl. cbn [length]. lia.
  - case_decide; cbn [length]; lia.
Qed.

(** X4.  The progress percentage counts every stored key that starts with the
    active evaluator, also responses of 0 and keys of no item, so it is
    never below the completion rate, whatever the response set. *)
Theorem calculateCompletionRate_le_progress
    (evals : gmap string Z) (active : Evaluator) :
  (calculateCompletionRate evals active ≤ calculateProgress evals active)%Z.
Proof.
  unfold calculateCompletionRate, calculateProgress, Js.Math_round.
  apply Qfloor_resp_le.
  apply Qplus_le_l, Qmult_le_compat_r; [|done].
  unfold Js.div. apply Qmult_le_compat_r.
  - rewrite <- Zle_Qle. apply inj_le.
    apply length_filter_impl. intros key [Hhead _].
    rewrite <- Hhead. apply split_head_prefix.
  - apply Qinv_le_0_compat. change 0%Q with (inject_Z 0).
    rewrite <- Zle_Qle. lia.
Qed.

(** ** Deleting by id *)

Lemma list_find_filter_snd {A : Type} (P R : A → Prop)
    `{∀ x, Decision (P x)} `{∀ x, Decision (R x)} (l : list A) :
  (∀ x, P x → R x) →
  snd <$> list_find P (filter R l) = snd <$> list_find P l.
Proof.
  intros Himpl.
  assert (Haux : ∀ o : option (nat * A),
            snd <$> (prod_map S id <$> o) = snd <$> o)
    by (by intros [[]|]).
  induction l as [|x l IH]; [done|].
  rewrite filter_cons. cbn [list_find].
  destruct (decide (P x)) as [HP|HP].
  - rewrite decide_True by by apply Himpl.
    cbn [list_find]. by rewrite decide_True.
  - destruct (decide (R x)).
    + cbn [list_find]. rewrite decide_False by done.
      by rewrite !Haux.
    + by rewrite Haux.
Qed.

Lemma filter_length_lt_iff {A : Type} (P : A → Prop) `{∀ x, Decision (P x)}
    (l : list A) :
  length (filter P l) ≠ length l ↔ ∃ x, x ∈ l ∧ ¬ P x.
Proof.
  split.
  - intros Hne. destruct (decide (Forall P l)) as [Hall|Hnot].
    + exfalso. apply Hne. f_equal.
      induction Hall as [|x l Hx Hl IH]; [done|].
      rewrite filter_cons, decide_True by done. f_equal. apply IH.
      rewrite filter_cons, decide_True in Hne by done. cbn in Hne. lia.
    + apply not_Forall_Exists in Hnot; [|apply _].
      apply Exists_exists in Hnot as (x & Hin & Hx). by exists x.
  - intros (x & Hin & Hx).
    pose proof (length_filter_lt P l x Hin Hx). lia.
Qed.

(** X5.  [deleteEvaluationDraft] returns [true] exactly when a draft has the
    id; afterwards no draft can be loaded under that id, every other id
    loads what it loaded before, and the other collections are unchanged.
    When it returns [false] the storage is unchanged. *)
Theorem deleteEvaluationDraft_removes (draftId : string) (s : Storage) :
  let deleted := (DataService.deleteEvaluationDraft draftId s).1 in
  let s' := (DataService.deleteEvaluationDraft draftId s).2 in
  (deleted = true ↔ ∃ d, d ∈ evaluationDrafts s ∧ d_id d = draftId)
  ∧ DataService.loadEvaluationDraft draftId s' = None
  ∧ (∀ id', id' ≠ draftId →
       DataService.loadEvaluationDraft id' s'
       = DataService.loadEvaluationDraft id' s)
  ∧ (deleted = false → s' = s)
  ∧ supportTargets s' = supportTargets s
  ∧ evaluationRecords s' = evaluationRecords s
  ∧ supportGoals s' = supportGoals s.
Proof.
  intros deleted s'.
  destruct (deleteEvaluationDraft_spec draftId s) as (Hd & Ht & Hr & Hg).
  fold s' in Hd, Ht, Hr, Hg.
  split; [|split; [|split; [|split]]].
  - unfold deleted, DataService.deleteEvaluationDraft.
    case_decide as Hlen; cbn [fst].
    + split; [done|]. intros (d & Hin & Hid). exfalso.
      assert (Hne : length (filter (λ d, d_id d ≠ draftId)
                              (evaluationDrafts s))
                    ≠ length (evaluationDrafts s)).
      { apply filter_length_lt_iff. exists d. split; [done|].
        intros Hn. by apply Hn. }
      by apply Hne.
    + split; [|done]. intros _.
      apply filter_length_lt_iff in Hlen as (d & Hin & Hd').
      exists d. split; [done|].
      by destruct (decide (d_id d = draftId)).
  - apply loadEvaluationDraft_None. intros d Hin. rewrite Hd in Hin.
    by apply list_elem_of_filter in Hin as [? _].
  - intros id' Hne. unfold DataService.loadEvaluationDraft. rewrite Hd.
    apply list_find_filter_snd. intros d <-. done.
  - unfold deleted, s', DataService.deleteEvaluationDraft.
    by case_decide.
  - done.
Qed.

(** X6.  [deleteEvaluationRecord] and [deleteSupportGoal] return [true]
    exactly when an entry has the id; they remove the entries with that id
    and keep the others in order, and they leave the storage unchanged
    when they return [false]. *)
Theorem delete_record_and_goal_by_id (id : string) (s : Storage) :
  (((DataService.deleteEvaluationRecord id s).1 = true
    ↔ ∃ r, r ∈ evaluationRecords s ∧ r_id r = id)
   ∧ evaluationRecords (DataService.deleteEvaluationRecord id s).2
     = filter (λ r, r_id r ≠ id) (evaluationRecords s)
   ∧ ((DataService.deleteEvaluationRecord id s).1 = false →
      (DataService.deleteEvaluationRecord id s).2 = s)
   ∧ supportGoals (DataService.deleteEvaluationRecord id s).2
     = supportGoals s)
  ∧ (((DataService.deleteSupportGoal id s).1 = true
      ↔ ∃ g, g ∈ supportGoals s ∧ g_id g = id)
     ∧ supportGoals (DataService.deleteSupportGoal id s).2
       = filter (λ g, g_id g ≠ id) (supportGoals s)
     ∧ ((DataService.deleteSupportGoal id s).1 = false →
        (DataService.deleteSupportGoal id s).2 = s)
     ∧ evaluationRecords (DataService.deleteSupportGoal id s).2
       = evaluationRecords s).
Proof.
  split.
  - unfold DataService.deleteEvaluationRecord.
    case_decide as Hlen; cbn [fst snd evaluationRecords supportGoals
                              DataService.setEvaluationRecords].
    + split; [|split; [by rewrite (filter_length_eq _ _ Hlen)|done]].
      split; [done|]. intros (r & Hin & Hid). exfalso.
      assert (Hne : length (filter (λ r, r_id r ≠ id) (evaluationRecords s))
                    ≠ length (evaluationRecords s)).
      { apply filter_length_lt_iff. exists r. split; [done|].
        intros Hn. by apply Hn. }
      by apply Hne.
    + split; [|done]. split; [|done]. intros _.
      apply filter_length_lt_iff in Hlen as (r & Hin & Hr).
      exists r. split; [done|]. by destruct (decide (r_id r = id)).
  - unfold DataService.deleteSupportGoal.
    case_decide as Hlen; cbn [fst snd evaluationRecords supportGoals
                              DataService.setSupportGoals].
    + split; [|split; [by rewrite (filter_length_eq _ _ Hlen)|done]].
      split; [done|]. intros (g & Hin & Hid). exfalso.
      assert (Hne : length (filter (λ g, g_id g ≠ id) (supportGoals s))
                    ≠ length (supportGoals s)).
      { apply filter_length_lt_iff. exists g. split; [done|].
        intros Hn. by apply Hn. }
      by apply Hne.
    + split; [|done]. split; [|done]. intros _.
      apply filter_length_lt_iff in Hlen as (g & Hin & Hg).
      exists g. split; [done|]. by destruct (decide (g_id g = id)).
Qed.

(** ** Updating a record *)

(** X7.  [updateEvaluationRecord] returns nothing and writes nothing when no
    record has the id.  Otherwise it replaces the first record with the id
    in place, stamps [updatedAt] with the time of the call and takes every
    property present in [updates]; the scores are never recomputed: an
    update that carries new raw responses but no score leaves the old
    total and category scores in the record. *)
Theorem updateEvaluationRecord_merge
    (env : Env) (id : string) (updates : RecordUpdates) (s : Storage) :
  ((∀ r, r ∈ evaluationRecords s → r_id r ≠ id) →
   DataService.updateEvaluationRecord env id updates s = (None, s))
  ∧ (∀ i old,
       evaluationRecords s !! i = Some old → r_id old = id →
       (∀ j r, (j < i)%nat → evaluationRecords s !! j = Some r →
               r_id r ≠ id) →
       ∃ updated : EvaluationRecord,
         DataService.updateEvaluationRecord env id updates s
         = (Some updated,
            DataService.setEvaluationRecords
              (<[i := updated]> (evaluationRecords s)) s)
         ∧ r_updatedAt updated = env_iso env
         ∧ (∀ evs, ru_evaluations updates = Some evs →
                   r_evaluations updated = evs)
         ∧ (ru_totalScore updates = None →
            r_totalScore updated = r_totalScore old)
         ∧ (ru_categoryScores updates = None →
            r_categoryScores updated = r_categoryScores old)
         ∧ (ru_id updates = None → r_id updated = id)).
Proof.
  split.
  - intros Hnone. unfold DataService.updateEvaluationRecord.
    destruct (list_find _ _) as [[i r]|] eqn:Hfind; [|done].
    apply list_find_Some in Hfind as (Hi & Hid & _). exfalso.
    apply (Hnone r); [by eapply list_elem_of_lookup_2|done].
  - intros i old Hi Hid Hfirst.
    unfold DataService.updateEvaluationRecord.
    rewrite (proj2 (list_find_Some (λ r, r_id r = id) _ i old)).
    2:{ split; [done|]. split; [done|]. intros j r Hj Hlt.
        by eapply Hfirst. }
    eexists. split; [reflexivity|].
    unfold DataService.mergeRecord.
    cbn [r_updatedAt r_evaluations r_totalScore r_categoryScores r_id].
    split; [done|]. split; [by intros evs ->|].
    split; [by intros ->|]. split; [by intros ->|]. by intros ->.
Qed.

Definition onlyResponses (evs : gmap string Z) : RecordUpdates :=
  {| ru_id := None; ru_targetId := None; ru_targetName := None;
     ru_evaluationDate := None; ru_evaluator := None;
     ru_evaluations := Some evs; ru_subChecks := None; ru_comments := None;
     ru_totalScore := None; ru_categoryScores := None;
     ru_createdAt := None; ru_updatedAt := None |}.

Lemma updateEvaluationRecord_merge_witness :
  ∃ updated : EvaluationRecord,
    (DataService.updateEvaluationRecord sampleEnv "eval_1"
       (onlyResponses unevenResponses) fullStorage).1 = Some updated
    ∧ r_evaluations updated = unevenResponses
    ∧ r_totalScore updated = 8%Z.
Proof.
  destruct (updateEvaluationRecord_merge sampleEnv "eval_1"
              (onlyResponses unevenResponses) fullStorage) as [_ H].
  destruct (H 0%nat tanakaRecord eq_refl eq_refl)
    as (updated & Heq & _ & Hevs & Htot & _).
  { intros j r Hlt. lia. }
  exists updated. split; [by rewrite Heq|].
  split; [by apply Hevs|]. by rewrite Htot.
Defined.

(** ** Converting a draft with placeholder scores *)

(** X8.  [convertDraftToRecord] removes an existing draft and appends one
    record with the draft's key and raw responses, but with the
    placeholder scores: total 0 and 0 for each of the three categories,
    whatever was answered.  Without a draft of that id it returns nothing
    and writes nothing. *)
Theorem convertDraftToRecord_placeholder
    (env : Env) (draftId : string) (s : Storage) :
  (∀ draft, DataService.loadEvaluationDraft draftId s = Some draft →
     ∃ saved : EvaluationRecord,
       (DataService.convertDraftToRecord env draftId s).1 = Some saved
       ∧ evaluationRecords (DataService.convertDraftToRecord env draftId s).2
         = evaluationRecords s ++ [saved]
       ∧ evaluationDrafts (DataService.convertDraftToRecord env draftId s).2
         = filter (λ d, d_id d ≠ draftId) (evaluationDrafts s)
       ∧ recordKey saved = draftKey draft
       ∧ r_evaluations saved = d_evaluations draft
       ∧ r_totalScore saved = 0%Z
       ∧ (∀ c category, categories !! c = Some category →
            r_categoryScores saved !! category_name category = Some 0%Q))
  ∧ ((∀ d, d ∈ evaluationDrafts s → d_id d ≠ draftId) →
     DataService.convertDraftToRecord env draftId s = (None, s)).
Proof.
  split.
  - intros draft Hload. unfold DataService.convertDraftToRecord.
    rewrite Hload. unfold DataService.saveEvaluationRecord.
    set (saved := mkEvaluationRecord _ _ _ _ _ _ _ _ _ _ _ _).
    set (s1 := DataService.setEvaluationRecords _ s).
    destruct (deleteEvaluationDraft_spec draftId s1) as (Hd & _ & Hr & _).
    destruct (DataService.deleteEvaluationDraft draftId s1) as [b s2].
    cbn [fst snd] in Hd, Hr |- *.
    exists saved. split; [reflexivity|].
    split; [by rewrite Hr|]. split; [by rewrite Hd|].
    split; [reflexivity|]. split; [reflexivity|].
    split; [reflexivity|].
    intros c category Hc. unfold saved.
    cbn [r_categoryScores ri_categoryScores].
    do 3 (destruct c as [|c];
          [ injection Hc as <-; cbn [category_name]; by simplify_map_eq | ]).
    done.
  - intros Hnone. apply loadEvaluationDraft_None in Hnone.
    unfold DataService.convertDraftToRecord. by rewrite Hnone.
Qed.

Lemma convertDraftToRecord_placeholder_witness :
  ∃ saved : EvaluationRecord,
    (DataService.convertDraftToRecord sampleEnv "draft_1" unevenStorage).1
    = Some saved
    ∧ r_totalScore saved = 0%Z.
Proof.
  destruct (convertDraftToRecord_placeholder sampleEnv "draft_1"
              unevenStorage) as [H _].
  destruct (H unevenDraft eq_refl) as (saved & Hs & _ & _ & _ & _ & Ht & _).
  by exists saved.
Defined.

(** ** Goals: one per target and date *)

Definition goalKey (g : SupportGoal) : string * string :=
  (g_targetId g, g_goalDate g).

Lemma goalMatches_key t dt g :
  DataService.goalMatches t dt g ↔ goalKey g = (t, dt).
Proof.
  unfold DataService.goalMatches, goalKey. split.
  - by intros [-> ->].
  - by intros [= -> ->].
Qed.

(** X9.  After [saveSupportGoal], [findSupportGoal] for the saved target and
    date returns the saved goal.  On goals with pairwise distinct
    (targetId, goalDate) pairs the save keeps them distinct: an existing
    goal of the pair is replaced in place and keeps its id, [createdAt]
    and, when the request carries none, its AI recommendations; otherwise
    a goal with the generated id is appended. *)
Theorem saveSupportGoal_upsert (env : Env) (goal : GoalInput) (s : Storage) :
  NoDup (goalKey <$> supportGoals s) →
  let saved := (DataService.saveSupportGoal env goal s).1 in
  let s' := (DataService.saveSupportGoal env goal s).2 in
  let key := (gi_targetId goal, gi_goalDate goal) in
  DataService.findSupportGoal (gi_targetId goal) (gi_goalDate goal) s'
  = Some saved
  ∧ NoDup (goalKey <$> supportGoals s')
  ∧ filter (λ g, goalKey g = key) (supportGoals s') = [saved]
  ∧ g_updatedAt saved = env_iso env
  ∧ (g_selectedGoal saved, g_actionPlan saved, g_successCriteria saved,
     g_supportNeeded saved)
    = (gi_selectedGoal goal, gi_actionPlan goal, gi_successCriteria goal,
       gi_supportNeeded goal)
  ∧ (∀ i old, supportGoals s !! i = Some old → goalKey old = key →
       g_id saved = g_id old ∧ g_createdAt saved = g_createdAt old
       ∧ (gi_aiRecommendations goal = None →
          g_aiRecommendations saved = g_aiRecommendations old)
       ∧ supportGoals s' = <[i := saved]> (supportGoals s))
  ∧ (key ∉ goalKey <$> supportGoals s →
       g_id saved = generateId "goal" env
       ∧ g_createdAt saved = env_iso env
       ∧ supportGoals s' = supportGoals s ++ [saved])
  ∧ evaluationRecords s' = evaluationRecords s
  ∧ evaluationDrafts s' = evaluationDrafts s
  ∧ supportTargets s' = supportTargets s.
Proof.
  intros Hnd saved s' key.
  unfold saved, s', DataService.saveSupportGoal, DataService.findSupportGoal.
  destruct (list_find _ (supportGoals s)) as [[i old]|] eqn:Hfind;
    cbn [fst snd supportGoals evaluationRecords evaluationDrafts
         supportTargets DataService.setSupportGoals].
  - apply list_find_Some in Hfind as (Hi & Hm & Hfirst).
    set (updated := DataService.mergeGoal old goal (env_iso env)).
    assert (Hkey : goalKey updated = key) by done.
    assert (Hkeys : goalKey <$> <[i := updated]> (supportGoals s)
                    = goalKey <$> supportGoals s).
    { rewrite list_fmap_insert. apply list_insert_id.
      rewrite list_lookup_fmap, Hi. cbn [fmap option_fmap option_map].
      f_equal. rewrite Hkey. by apply goalMatches_key. }
    assert (Hin : updated ∈ <[i := updated]> (supportGoals s)).
    { apply list_elem_of_lookup. exists i.
      apply list_lookup_insert_eq. by eapply lookup_lt_Some. }
    split.
    { erewrite (proj2 (list_find_Some _ _ i _)); [done|].
      split; [|split].
      - apply list_lookup_insert_eq. by eapply lookup_lt_Some.
      - by apply goalMatches_key.
      - intros j y Hj Hlt. rewrite list_lookup_insert_ne in Hj by lia.
        by eapply Hfirst. }
    split; [by rewrite Hkeys|]. split.
    { rewrite <- Hkey. apply filter_key_singleton; [by rewrite Hkeys|done]. }
    split; [done|]. split; [done|]. split; [|split; [|done]].
    + intros i' old' Hi' Hk'.
      assert (i' = i) as ->.
      { eapply (NoDup_fmap_lookup_inj goalKey (supportGoals s)); [done..|].
        rewrite Hk'. symmetry. by apply goalMatches_key. }
      rewrite Hi in Hi'. injection Hi' as <-.
      split; [done|]. split; [done|]. split; [|done].
      intros Hnone. unfold updated, DataService.mergeGoal.
      cbn [g_aiRecommendations]. by rewrite Hnone.
    + intros Hnot. exfalso. apply Hnot.
      apply goalMatches_key in Hm. fold key in Hm. rewrite <- Hm.
      apply list_elem_of_fmap_2. by eapply list_elem_of_lookup_2.
  - apply list_find_None in Hfind.
    set (newGoal := mkSupportGoal _ _ _ _ _ _ _ _ _ _ _).
    assert (Hkey : goalKey newGoal = key) by done.
    assert (Hnot : key ∉ goalKey <$> supportGoals s).
    { intros (g & Hg & Hin)%list_elem_of_fmap.
      apply (proj1 (Forall_forall _ _) Hfind g Hin).
      by apply goalMatches_key. }
    assert (Hnd' : NoDup (goalKey <$> (supportGoals s ++ [newGoal]))).
    { rewrite fmap_app. apply NoDup_app. split; [done|]. split.
      - intros k Hk [->|[]%elem_of_nil]%elem_of_cons. by apply Hnot.
      - apply NoDup_singleton. }
    split.
    { erewrite (proj2 (list_find_Some _ _ (length (supportGoals s)) _));
        [done|].
      split; [|split].
      - by rewrite lookup_app_r, Nat.sub_diag by lia.
      - by apply goalMatches_key.
      - intros j y Hj Hlt. rewrite lookup_app_l in Hj by lia.
        apply (proj1 (Forall_forall _ _) Hfind y).
        by eapply list_elem_of_lookup_2. }
    split; [done|]. split.
    { rewrite <- Hkey. apply filter_key_singleton; [done|].
      apply elem_of_app. right. by left. }
    split; [done|]. split; [done|]. split; [|split; [done|done]].
    intros i old Hi Hk. exfalso. apply Hnot. rewrite <- Hk.
    apply list_elem_of_fmap_2. by eapply list_elem_of_lookup_2.
Qed.

Definition sampleGoalInput : GoalInput :=
  {| gi_targetId := "T1"; gi_targetName := "Tanaka";
     gi_goalDate := "2025-07-21"; gi_selectedGoal := "punctuality";
     gi_actionPlan := "alarm"; gi_successCriteria := "five days";
     gi_supportNeeded := "morning call"; gi_aiRecommendations := None |}.

Lemma saveSupportGoal_upsert_witness :
  g_id <$> DataService.findSupportGoal "T1" "2025-07-21"
             (DataService.saveSupportGoal sampleEnv sampleGoalInput
                fullStorage).2
  = Some "goal_1".
Proof.
  assert (Hnd : NoDup (goalKey <$> supportGoals fullStorage))
    by compute_done.
  destruct (saveSupportGoal_upsert sampleEnv sampleGoalInput fullStorage Hnd)
    as (Hfind & _ & _ & _ & _ & Hover & _).
  destruct (Hover 0%nat tanakaGoal eq_refl eq_refl) as (Hid & _).
  refine (eq_trans (f_equal (fmap g_id) Hfind) _).
  cbn [fmap option_fmap option_map]. by rewrite Hid.
Defined.

(** ** Reading a saved draft back *)

(** X10.  After [saveEvaluationDraft], [findEvaluationDraft] for the saved
    triple returns the saved draft, on any collection.  When the ids of
    the stored drafts are pairwise distinct and the generated id is not
    among them, the ids stay distinct and [loadEvaluationDraft] with the
    id of the saved draft returns it. *)
Theorem saveEvaluationDraft_read_back
    (env : Env) (draft : DraftInput) (s : Storage) :
  let saved := (DataService.saveEvaluationDraft env draft s).1 in
  let s' := (DataService.saveEvaluationDraft env draft s).2 in
  DataService.findEvaluationDraft (di_targetId draft)
    (di_evaluationDate draft) (di_evaluator draft) s' = Some saved
  ∧ (NoDup (d_id <$> evaluationDrafts s) →
     generateId "draft" env ∉ d_id <$> evaluationDrafts s →
     NoDup (d_id <$> evaluationDrafts s')
     ∧ DataService.loadEvaluationDraft (d_id saved) s' = Some saved).
Proof.
  intros saved s'.
  unfold saved, s', DataService.saveEvaluationDraft,
    DataService.findEvaluationDraft, DataService.loadEvaluationDraft.
  destruct (list_find _ (evaluationDrafts s)) as [[i old]|] eqn:Hfind;
    cbn [fst snd evaluationDrafts DataService.setEvaluationDrafts].
  - apply list_find_Some in Hfind as (Hi & Hm & Hfirst).
    set (updated := DataService.mergeDraft old draft (env_iso env)).
    assert (Hat : <[i := updated]> (evaluationDrafts s) !! i = Some updated).
    { apply list_lookup_insert_eq. by eapply lookup_lt_Some. }
    split.
    { erewrite (proj2 (list_find_Some _ _ i _)); [done|].
      split; [done|]. split; [done|].
      intros j y Hj Hlt. rewrite list_lookup_insert_ne in Hj by lia.
      by eapply Hfirst. }
    intros Hnd _.
    assert (Hids : d_id <$> <[i := updated]> (evaluationDrafts s)
                   = d_id <$> evaluationDrafts s).
    { rewrite list_fmap_insert. apply list_insert_id.
      by rewrite list_lookup_fmap, Hi. }
    split; [by rewrite Hids|].
    erewrite (proj2 (list_find_Some _ _ i _)); [done|].
    split; [done|]. split; [done|].
    intros j y Hj Hlt Hid. rewrite list_lookup_insert_ne in Hj by lia.
    assert (j = i); [|lia].
    by apply (NoDup_fmap_lookup_inj d_id (evaluationDrafts s) j i y old).
  - apply list_find_None in Hfind.
    set (newDraft := DataService.newDraftOf env draft).
    split.
    { erewrite (proj2 (list_find_Some _ _ (length (evaluationDrafts s)) _));
        [done|].
      split; [|split].
      - by rewrite lookup_app_r, Nat.sub_diag by lia.
      - done.
      - intros j y Hj Hlt. rewrite lookup_app_l in Hj by lia.
        apply (proj1 (Forall_forall _ _) Hfind y).
        by eapply list_elem_of_lookup_2. }
    intros Hnd Hfresh. split.
    { rewrite fmap_app. apply NoDup_app. split; [done|]. split.
      - intros k Hk [->|[]%elem_of_nil]%elem_of_cons. by apply Hfresh.
      - apply NoDup_singleton. }
    erewrite (proj2 (list_find_Some _ _ (length (evaluationDrafts s)) _));
      [done|].
    split; [|split].
    + by rewrite lookup_app_r, Nat.sub_diag by lia.
    + done.
    + intros j y Hj Hlt Hid. rewrite lookup_app_l in Hj by lia.
      apply Hfresh. change (generateId "draft" env) with (d_id newDraft).
      rewrite <- Hid. apply list_elem_of_fmap_2.
      by eapply list_elem_of_lookup_2.
Qed.

Lemma saveEvaluationDraft_read_back_witness :
  d_completionRate
    <$> DataService.loadEvaluationDraft "draft_1"
          (DataService.saveEvaluationDraft sampleEnv (sampleDraftInput 6)
             unevenStorage).2
  = Some 6%Z.
Proof.
  destruct (saveEvaluationDraft_read_back sampleEnv (sampleDraftInput 6)
              unevenStorage) as [_ H].
  destruct H as [_ Hload]; [compute_done | compute_done |].
  refine (eq_trans (f_equal (fmap d_completionRate) Hload) _).
  reflexivity.
Defined.

(** ** Saving a target from the form *)

(** X11.  [handleSaveTarget] writes nothing when the user id, the name or the
    birthdate of the form is empty.  With a valid form and no target under
    edit it appends a target with the generated id and the form's fields.
    With a target under edit it replaces the first stored target of that
    id in place with the form's fields, keeping its id and [createdAt],
    and it silently writes nothing when no stored target has that id.
    Records, drafts and goals are never touched. *)
Theorem handleSaveTarget_spec
    (env : Env) (form : TargetInput) (editing : option SupportTarget)
    (s : Storage) :
  let valid := ti_userId form ≠ "" ∧ ti_name form ≠ ""
               ∧ ti_birthdate form ≠ "" in
  let formOf (t : SupportTarget) :=
    mkTargetInput (t_userId t) (t_name t) (t_birthdate t) (t_email t)
      (t_gender t) (t_disability t) (t_supportStartDate t) (t_notes t) in
  (¬ valid → handleSaveTarget env form editing s = None)
  ∧ (valid → editing = None →
     ∃ new : SupportTarget,
       handleSaveTarget env form editing s
       = Some (DataService.setSupportTargets (supportTargets s ++ [new]) s)
       ∧ t_id new = generateId "target" env ∧ formOf new = form
       ∧ t_createdAt new = env_iso env ∧ t_updatedAt new = env_iso env)
  ∧ (valid → ∀ target i old,
       editing = Some target →
       supportTargets s !! i = Some old → t_id old = t_id target →
       (∀ j t, (j < i)%nat → supportTargets s !! j = Some t →
               t_id t ≠ t_id target) →
       ∃ updated : SupportTarget,
         handleSaveTarget env form editing s
         = Some (DataService.setSupportTargets
                   (<[i := updated]> (supportTargets s)) s)
         ∧ t_id updated = t_id old ∧ t_createdAt updated = t_createdAt old
         ∧ formOf updated = form ∧ t_updatedAt updated = env_iso env)
  ∧ (valid → ∀ target,
       editing = Some target →
       (∀ t, t ∈ supportTargets s → t_id t ≠ t_id target) →
       handleSaveTarget env form editing s = Some s)
  ∧ (∀ s', handleSaveTarget env form editing s = Some s' →
       evaluationRecords s' = evaluationRecords s
       ∧ evaluationDrafts s' = evaluationDrafts s
       ∧ supportGoals s' = supportGoals s).
Proof.
  intros valid formOf. unfold handleSaveTarget.
  split; [|split; [|split; [|split]]].
  - intros Hinv. rewrite decide_True; [done|]. unfold valid in Hinv.
    destruct (decide (ti_userId form = "")); [by left|].
    destruct (decide (ti_name form = "")); [by right; left|].
    destruct (decide (ti_birthdate form = "")); [by right; right|].
    by exfalso; apply Hinv.
  - intros (H1 & H2 & H3) ->. rewrite decide_False by tauto.
    eexists. split; [reflexivity|]. unfold formOf. by destruct form.
  - intros (H1 & H2 & H3) target i old -> Hi Hid Hfirst.
    rewrite decide_False by tauto.
    unfold DataService.updateSupportTarget.
    rewrite (proj2 (list_find_Some (λ t, t_id t = t_id target) _ i old)).
    2:{ split; [done|]. split; [done|]. intros j t Hj Hlt.
        by eapply Hfirst. }
    eexists. split; [reflexivity|]. unfold formOf. by destruct form.
  - intros (H1 & H2 & H3) target -> Hnone.
    rewrite decide_False by tauto.
    unfold DataService.updateSupportTarget.
    destruct (list_find _ _) as [[i t]|] eqn:Hfind; [|done].
    apply list_find_Some in Hfind as (Hi & Hid & _). exfalso.
    apply (Hnone t); [by eapply list_elem_of_lookup_2|done].
  - intros s'. case_decide; [done|].
    destruct editing as [target|]; intros [= <-]; [|done].
    unfold DataService.updateSupportTarget.
    by destruct (list_find _ _) as [[i t]|].
Qed.

Definition validForm : TargetInput :=
  {| ti_userId := "U-002"; ti_name := "Sato"; ti_birthdate := "1994-07-22";
     ti_email := ""; ti_gender := female; ti_disability := "";
     ti_supportStartDate := "2025-02-01"; ti_notes := "" |}.

Lemma handleSaveTarget_spec_witness :
  (λ s', length (supportTargets s'))
    <$> handleSaveTarget sampleEnv validForm None fullStorage
  = Some 2%nat.
Proof.
  destruct (handleSaveTarget_spec sampleEnv validForm None fullStorage)
    as (_ & Hadd & _).
  destruct Hadd as (new & -> & _); [by repeat split | done |].
  reflexivity.
Defined.

(** ** Sub-check triggers: the form against the analysis payload *)

Lemma item_trigger_by_type c i item :
  lookupItem c i = Some item →
  item_subCheckTrigger item
  = match item_type item with
    | radio_5_level => []
    | radio_5_level_with_sub_check => [3%Z; 4%Z; 5%Z]
    | radio_2_level_with_sub_check => [2%Z]
    end.
Proof.
  unfold lookupItem. intros H.
  destruct (categories !! c) as [category|] eqn:Hc; [|done].
  cbn [mbind option_bind] in H.
  assert (Hin : item ∈ mjoin (category_items <$> categories)).
  { apply list_elem_of_join. exists (category_items category). split.
    - by eapply list_elem_of_lookup_2.
    - apply list_elem_of_fmap. exists category. split; [done|].
      by eapply list_elem_of_lookup_2. }
  clear H. revert item Hin. apply Forall_forall. compute_done.
Qed.

(** X12.  The form opens the sub-checks of an item from the raw response, the
    analysis payload sets [hasDetailChecks] from the normalized score with
    the same trigger list.  For a response in domain: on a 5-level item
    with sub-checks the form opens them for raw 3, 4 and 5 and the payload
    flags raw 1, 2 and 3; on a 2-level item the form opens them for raw 2
    and the payload flags raw 1; on a plain item neither does. *)
Theorem hasDetailChecks_against_showSubCheck
    (evals : gmap string Z) (e : Evaluator) (c i : nat) (item : Item) :
  lookupItem c i = Some item →
  rawInDomain item (getEvaluation evals e c i) →
  let raw := getEvaluation evals e c i in
  (item_type item = radio_5_level_with_sub_check →
     (showSubCheck evals e item c i = true ↔ (3 ≤ raw ≤ 5)%Z)
     ∧ (hasDetailChecks evals e item c i = true ↔ (1 ≤ raw ≤ 3)%Z))
  ∧ (item_type item = radio_2_level_with_sub_check →
       (showSubCheck evals e item c i = true ↔ raw = 2%Z)
       ∧ (hasDetailChecks evals e item c i = true ↔ raw = 1%Z))
  ∧ (item_type item = radio_5_level →
       showSubCheck evals e item c i = false
       ∧ hasDetailChecks evals e item c i = false).
Proof.
  intros Hitem Hdom raw.
  pose proof (item_trigger_by_type _ _ _ Hitem) as Htrig.
  pose proof (item_options_by_type _ _ _ Hitem) as Hopt.
  unfold showSubCheck, hasDetailChecks.
  rewrite getEvaluationScore_raw. fold raw. fold raw in Hdom.
  unfold scoreFromRaw, rawInDomain in *. rewrite Hitem.
  rewrite Htrig.
  split; [|split]; intros Hty; rewrite Hty in Hopt |- *.
  - rewrite decide_False in Hopt by done. rewrite Hopt in Hdom.
    rewrite !bool_decide_eq_true, !elem_of_cons, !elem_of_nil.
    rewrite (decide_False (P := radio_5_level_with_sub_check
                               = radio_2_level_with_sub_check)) by done.
    split; [lia|]. case_decide; lia.
  - rewrite decide_True in Hopt by done. rewrite Hopt in Hdom.
    rewrite !bool_decide_eq_true, !elem_of_cons, !elem_of_nil.
    rewrite (decide_True (P := radio_2_level_with_sub_check
                              = radio_2_level_with_sub_check)) by done.
    split; [lia|]. repeat case_decide; lia.
  - split; apply bool_decide_eq_false, not_elem_of_nil.
Qed.

Lemma hasDetailChecks_against_showSubCheck_witness :
  showSubCheck unevenResponses staff (twoLevel "I-11") 0 10 = false.
Proof.
  destruct (hasDetailChecks_against_showSubCheck unevenResponses staff 0 10
              (twoLevel "I-11") eq_refl ltac:(compute_done))
    as (_ & H2 & _).
  destruct (H2 eq_refl) as [Hshow _].
  destruct (showSubCheck unevenResponses staff (twoLevel "I-11") 0 10)
    eqn:Hs; [|reflexivity].
  pose proof (proj1 Hshow eq_refl) as Hr. vm_compute in Hr.
  discriminate Hr.
Defined.

(** ** Difference analysis *)

(** The items of the checklist in the order the nested [forEach] visit
    them, each with its category and indices. *)
Definition itemRows : list (Category * nat * nat) :=
  concat (imap (λ c category,
                  imap (λ i _, (category, c, i)) (category_items category))
               categories).

(** Some evaluator has a positive score for the item. *)
Definition answeredByAny (evals : gmap string Z) (p : nat * nat) : Prop :=
  (getEvaluationScore evals staff p.1 p.2 > 0)%Z
  ∨ (getEvaluationScore evals self p.1 p.2 > 0)%Z
  ∨ (getEvaluationScore evals family p.1 p.2 > 0)%Z.

Global Instance answeredByAny_dec evals p : Decision (answeredByAny evals p).
Proof. unfold answeredByAny. apply _. Defined.

(** The analysis entry of an item, when some evaluator answered it. *)
Definition analysisAt (evals : gmap string Z) (row : Category * nat * nat)
    : option ItemAnalysis :=
  let '(category, c, i) := row in
  let staffScore := getEvaluationScore evals staff c i in
  let selfScore := getEvaluationScore evals self c i in
  let familyScore := getEvaluationScore evals family c i in
  if decide (answeredByAny evals (c, i)) then
    Some {| ia_category := category_name category;
            ia_staffScore := staffScore;
            ia_selfScore := selfScore;
            ia_familyScore := familyScore;
            ia_maxDiff :=
              maxDiffOf (filter (λ score, (score > 0)%Z)
                           [staffScore; selfScore; familyScore]);
            ia_categoryIndex := c;
            ia_itemIndex := i |}
  else None.

Definition analyses (evals : gmap string Z) : list ItemAnalysis :=
  omap (analysisAt evals) itemRows.

Lemma differenceBuckets_rows evals :
  differenceBuckets evals
  = foldl (λ acc row, classifyItem evals row.1.1 row.1.2 row.2 acc)
          (mkBuckets [] [] []) itemRows.
Proof. reflexivity. Qed.

Lemma classifyItem_buckets evals category c i acc :
  let entry := option_list (analysisAt evals (category, c, i)) in
  highDiffItems (classifyItem evals category c i acc)
  = highDiffItems acc ++ filter (λ a, (3 ≤ ia_maxDiff a)%Z) entry
  ∧ moderateDiffItems (classifyItem evals category c i acc)
    = moderateDiffItems acc ++ filter (λ a, ia_maxDiff a = 2%Z) entry
  ∧ lowDiffItems (classifyItem evals category c i acc)
    = lowDiffItems acc ++ filter (λ a, (ia_maxDiff a ≤ 1)%Z) entry.
Proof.
  intros entry. unfold entry, classifyItem, analysisAt.
  destruct (decide (answeredByAny evals (c, i))) as [Hany|Hany].
  - rewrite (decide_True (P := _ ∨ _ ∨ _)) by exact Hany.
    cbv beta iota zeta delta [option_list option_rect].
    set (d := maxDiffOf _).
    rewrite !filter_cons, !filter_nil. cbn [ia_maxDiff].
    repeat case_decide; cbn [highDiffItems moderateDiffItems lowDiffItems];
      repeat rewrite app_nil_r; try done; lia.
  - rewrite (decide_False (P := _ ∨ _ ∨ _)) by exact Hany.
    cbv beta iota zeta delta [option_list option_rect].
    by rewrite !filter_nil, !app_nil_r.
Qed.

Lemma omap_cons_app {A B : Type} (f : A → option B) (x : A) (l : list A) :
  omap f (x :: l) = option_list (f x) ++ omap f l.
Proof. cbn [omap list_omap]. by destruct (f x). Qed.

Lemma foldl_classify_buckets evals rows acc :
  let final := foldl (λ acc row,
                        classifyItem evals row.1.1 row.1.2 row.2 acc)
                     acc rows in
  let entries := omap (analysisAt evals) rows in
  highDiffItems final
  = highDiffItems acc ++ filter (λ a, (3 ≤ ia_maxDiff a)%Z) entries
  ∧ moderateDiffItems final
    = moderateDiffItems acc ++ filter (λ a, ia_maxDiff a = 2%Z) entries
  ∧ lowDiffItems final
    = lowDiffItems acc ++ filter (λ a, (ia_maxDiff a ≤ 1)%Z) entries.
Proof.
  revert acc. induction rows as [|[[category c] i] rows IH]; intros acc.
  - cbn [foldl omap list_omap]. by rewrite !filter_nil, !app_nil_r.
  - cbn [foldl fst snd].
    destruct (IH (classifyItem evals category c i acc)) as (Hh & Hm & Hl).
    destruct (classifyItem_buckets evals category c i acc)
      as (Hh1 & Hm1 & Hl1).
    cbn zeta in *. rewrite Hh, Hm, Hl, Hh1, Hm1, Hl1.
    rewrite (omap_cons_app (analysisAt evals)).
    by rewrite !filter_app, <- !app_assoc.
Qed.

Lemma three_way_Permutation {A : Type} (f : A → Z) (l : list A) :
  filter (λ a, (3 ≤ f a)%Z) l ++ filter (λ a, f a = 2%Z) l
    ++ filter (λ a, (f a ≤ 1)%Z) l ≡ₚ l.
Proof.
  induction l as [|x l IH]; [done|].
  rewrite !filter_cons.
  destruct (decide (3 ≤ f x)%Z); [|destruct (decide (f x = 2%Z))].
  - rewrite decide_False, decide_False by lia. cbn [app]. by rewrite IH.
  - rewrite decide_False by lia. cbn [app].
    rewrite <- Permutation_middle. by rewrite IH.
  - rewrite decide_True by lia.
    rewrite app_assoc, <- Permutation_middle, <- app_assoc. by rewrite IH.
Qed.

Lemma filter_ext_Forall {A : Type} (P R : A → Prop)
    `{∀ x, Decision (P x)} `{∀ x, Decision (R x)} (l : list A) :
  Forall (λ x, P x ↔ R x) l → filter P l = filter R l.
Proof.
  induction 1 as [|x l Hx Hl IH]; [done|].
  rewrite !filter_cons, IH. repeat case_decide; tauto.
Qed.

Lemma Math_max_min_le (x : Z) (l : list Z) :
  (Math_min x l ≤ x ≤ Math_max x l)%Z.
Proof.
  unfold Math_min, Math_max. revert x.
  induction l as [|y l IH]; intros x; cbn [foldl]; [lia|].
  pose proof (IH (Z.min x y)). pose proof (IH (Z.max x y)). lia.
Qed.

Lemma maxDiffOf_nonneg (l : list Z) : (0 ≤ maxDiffOf l)%Z.
Proof.
  destruct l as [|x [|y l]]; cbn [maxDiffOf]; [lia..|].
  pose proof (Math_max_min_le x (y :: l)). lia.
Qed.

Lemma analyses_positions evals :
  (λ a, (ia_categoryIndex a, ia_itemIndex a)) <$> analyses evals
  = filter (answeredByAny evals) positions.
Proof.
  change positions with ((λ row : Category * nat * nat, (row.1.2, row.2))
                         <$> itemRows).
  unfold analyses. induction itemRows as [|[[category c] i] rows IH];
    [done|].
  rewrite fmap_cons, filter_cons. cbn [omap list_omap fst snd].
  unfold analysisAt at 1.
  destruct (decide (answeredByAny evals (c, i))) as [Hany|Hany].
  - rewrite fmap_cons. cbn [ia_categoryIndex ia_itemIndex]. by rewrite IH.
  - exact IH.
Qed.

(** X13.  [generateDifferenceAnalysis] files every item that some evaluator
    answered in exactly one of its three lists, in checklist order: under
    high when the largest gap between the positive scores is 3 or more,
    under moderate when it is 2, under low when it is 0 or 1; an item
    nobody answered appears in none.  The gap is never negative. *)
Theorem differenceBuckets_partition (evals : gmap string Z) :
  let buckets := differenceBuckets evals in
  highDiffItems buckets
  = filter (λ a, (3 ≤ ia_maxDiff a)%Z) (analyses evals)
  ∧ moderateDiffItems buckets
    = filter (λ a, ia_maxDiff a = 2%Z) (analyses evals)
  ∧ lowDiffItems buckets
    = filter (λ a, (0 ≤ ia_maxDiff a ≤ 1)%Z) (analyses evals)
  ∧ highDiffItems buckets ++ moderateDiffItems buckets
      ++ lowDiffItems buckets ≡ₚ analyses evals
  ∧ (λ a, (ia_categoryIndex a, ia_itemIndex a)) <$> analyses evals
    = filter (answeredByAny evals) positions.
Proof.
  intros buckets. unfold buckets. rewrite differenceBuckets_rows.
  destruct (foldl_classify_buckets evals itemRows (mkBuckets [] [] []))
    as (Hh & Hm & Hl).
  cbn zeta in Hh, Hm, Hl. cbn [highDiffItems moderateDiffItems lowDiffItems
                               app] in Hh, Hm, Hl.
  fold (analyses evals) in Hh, Hm, Hl.
  assert (Hnn : Forall (λ a, (0 ≤ ia_maxDiff a)%Z) (analyses evals)).
  { apply Forall_forall. intros a Hin. unfold analyses in Hin.
    apply list_elem_of_omap in Hin as ([[category c] i] & _ & Ha).
    unfold analysisAt in Ha. case_decide; [|done].
    injection Ha as <-. apply maxDiffOf_nonneg. }
  split; [exact Hh|]. split; [exact Hm|]. split.
  { rewrite Hl. apply filter_ext_Forall.
    eapply Forall_impl; [exact Hnn|]. cbn beta. intros a Ha. lia. }
  split; [|apply analyses_positions].
  rewrite Hh, Hm, Hl. apply three_way_Permutation.
Qed.

(** ** Entering a comment *)

(** X14.  After [handleComment] on an item of the checklist, [getComment] gives
    the entered text at that item for the active evaluator and the earlier
    text at every other item or evaluator; the raw responses are
    untouched. *)
Theorem handleComment_getComment
    (ss : Session) (p q : nat * nat) (comment : string) (e : Evaluator) :
  p ∈ positions → q ∈ positions →
  let ss' := handleComment ss p.1 p.2 comment in
  getComment ss' e q.1 q.2
  = (if decide (e = activeEvaluator ss ∧ q = p) then comment
     else getComment ss e q.1 q.2)
  ∧ evaluations ss' = evaluations ss.
Proof.
  intros Hp Hq ss'. split; [|done].
  unfold getComment, ss', handleComment. cbn [comments].
  case_decide as Hsame.
  - destruct Hsame as [-> ->]. by rewrite lookup_insert_eq.
  - rewrite lookup_insert_ne; [done|].
    intros Hkey. apply Hsame.
    by destruct (responseKey_inj _ _ _ _ Hp Hq Hkey) as [-> ->].
Qed.

Lemma handleComment_getComment_witness :
  getComment (handleComment unevenSession 0 0 "on time") staff 0 0
  = "on time".
Proof.
  destruct (handleComment_getComment unevenSession (0, 0) (0, 0) "on time"
              staff ltac:(compute_done) ltac:(compute_done)) as [H _].
  exact H.
Defined.

(** ** Records and goals of a target *)

(** X15.  A saved record shows up in [getEvaluationRecordsByTarget] of its
    target, after the earlier ones, and in that of no other target.  After
    a successful [deleteSupportTarget] the deleted id has no records left,
    every other id has the records it had, and [getSupportGoalsByTarget]
    still returns the goals of the deleted target. *)
Theorem records_by_target (env : Env) (record : RecordInput) (id : string)
    (s : Storage) :
  (∀ t,
     DataService.getEvaluationRecordsByTarget t
       (DataService.saveEvaluationRecord env record s).2
     = DataService.getEvaluationRecordsByTarget t s
       ++ (if decide (ri_targetId record = t)
           then [(DataService.saveEvaluationRecord env record s).1]
           else []))
  ∧ ((DataService.deleteSupportTarget id s).1 = true →
     DataService.getEvaluationRecordsByTarget id
       (DataService.deleteSupportTarget id s).2 = []
     ∧ (∀ t, t ≠ id →
          DataService.getEvaluationRecordsByTarget t
            (DataService.deleteSupportTarget id s).2
          = DataService.getEvaluationRecordsByTarget t s)
     ∧ DataService.getSupportGoalsByTarget id
         (DataService.deleteSupportTarget id s).2
       = DataService.getSupportGoalsByTarget id s).
Proof.
  split.
  - intros t. unfold DataService.getEvaluationRecordsByTarget,
      DataService.saveEvaluationRecord.
    cbn [fst snd evaluationRecords DataService.setEvaluationRecords].
    rewrite filter_app, filter_cons, filter_nil. cbn [r_targetId].
    by repeat case_decide.
  - unfold DataService.deleteSupportTarget,
      DataService.getEvaluationRecordsByTarget,
      DataService.getSupportGoalsByTarget.
    case_decide; [done|]. intros _.
    cbn [fst snd evaluationRecords supportGoals
         DataService.deleteEvaluationRecordsByTarget
         DataService.setEvaluationRecords DataService.setSupportTargets].
    split; [|split; [|done]].
    + apply elem_of_nil_inv. intros r [Hr Hin]%list_elem_of_filter.
      by apply list_elem_of_filter in Hin as [Hne _].
    + intros t Hne. rewrite list_filter_filter.
      apply list_filter_iff. intros r. split; [tauto|].
      intros Heq. split; first [done | intros Hid; apply Hne; congruence].
Qed.

Lemma records_by_target_witness :
  DataService.getEvaluationRecordsByTarget "T1"
    (DataService.deleteSupportTarget "T1" fullStorage).2 = []
  ∧ DataService.getSupportGoalsByTarget "T1"
      (DataService.deleteSupportTarget "T1" fullStorage).2 = [tanakaGoal].
Proof.
  destruct (records_by_target sampleEnv sampleRecordInput "T1" fullStorage)
    as [_ H].
  destruct (H eq_refl) as (Hnone & _ & Hgoals).
  split; [exact Hnone|]. rewrite Hgoals. reflexivity.
Defined.
